(** * BarcodeCache: the SQL dialect shim and the cache-or-fetch handler

    A shallow embedding of [Server/SQL.go] (the [SQLShim] and the three
    database servers built on it), of [RandomServer] and of
    [barcodeHandler], followed by the properties of the specification
    that concern them.

    Conventions.
    - A Go [string] is a [String.string]: a sequence of bytes.
    - A Go [error] value is an [option error], [None] being [nil]; a
      nullable pointer [*BarcodeItem] is an [option BarcodeItem].
    - [log.Fatalln] prints and exits the process: a computation is a pair
      of the lines logged so far and of [Some] result, or [None] when the
      process has exited. *)

From Stdlib Require Import String Ascii List ZArith Lia Bool DecimalString.
Import ListNotations.
Open Scope string_scope.
Open Scope list_scope.

Set Implicit Arguments.

(* ================================================================== *)
(** ** Values exchanged between the components *)

(** [type BarcodeItem struct]. *)
Record BarcodeItem : Type := mkItem {
  Barcode : string;
  ISBN : string;
  Author : string;
  Title : string
}.

(** Go [error] values the model tells apart: [fmt.Errorf] applied to a
    format with no operand, an error handed back by [database/sql] or one
    of its drivers, and a failed write to the connection of a response. *)
Inductive error : Type :=
| Errorf (format : string)
| DriverError (msg : string)
| WriteError (msg : string).

(** Operands of [log.Println] and [log.Fatalln]. *)
Inductive logarg : Type :=
| LStr (s : string)
| LItem (item : option BarcodeItem)
| LErr (e : error).

Inductive logline : Type :=
| Println (args : list logarg)
| Fatalln (args : list logarg).

(* ================================================================== *)
(** ** Computations that log and may exit the process *)

Module Proc.

(** [Run E A]: the events recorded, and the value computed unless the
    process exited. *)
Definition Run (E A : Type) : Type := (list E * option A)%type.

Definition ret {E A} (a : A) : Run E A := ([], Some a).

Definition bind {E A B} (m : Run E A) (k : A -> Run E B) : Run E B :=
  match m with
  | (out, Some a) => let (out', r) := k a in (out ++ out', r)
  | (out, None) => (out, None)
  end.

Definition emit {E} (e : E) : Run E unit := ([e], Some tt).

(** Code that only logs. *)
Definition M (A : Type) : Type := Run logline A.

Definition log_Println (args : list logarg) : M unit :=
  emit (Println args).

Definition log_Fatalln {A} (args : list logarg) : M A :=
  ([Fatalln args], None).

End Proc.

Import Proc.

Notation "x <- m ;; k" := (bind m (fun x => k))
  (at level 61, m at next level, right associativity).
Notation "' pat <- m ;; k" := (bind m (fun x => match x with pat => k end))
  (at level 61, pat pattern, m at next level, right associativity).
Notation "m ;;; k" := (bind m (fun _ => k))
  (at level 61, right associativity).

(** [func boom (e error, msg string)]: "for when things go badly wrong". *)
Definition boom (e : option error) (msg : string) : M unit :=
  match e with
  | Some e' => log_Fatalln [LStr msg; LStr "("; LErr e'; LStr ")"]
  | None => ret tt
  end.

(* ================================================================== *)
(** ** The pieces of the Go library the shim relies on *)

Definition LF : string := String "010"%char "".
Definition TAB : string := String "009"%char "".

(** [%d] of an [int]. *)
Definition dec (n : Z) : string := NilZero.string_of_int (Z.to_int n).

(** [fmt.Sprintf] for formats whose only verb is [%s] and whose operands
    are strings; every other byte of the format is copied. *)
Fixpoint Sprintf (format : string) (args : list string) : string :=
  match format with
  | EmptyString => ""
  | String "%"%char (String "s"%char rest) =>
      match args with
      | a :: args' => a ++ Sprintf rest args'
      | [] => "%!s(MISSING)" ++ Sprintf rest []
      end
  | String c rest => String c (Sprintf rest args)
  end.

Definition is_ascii (c : ascii) : bool := (nat_of_ascii c <? 128)%nat.

Definition lower_byte (c : ascii) : ascii :=
  let n := nat_of_ascii c in
  if ((65 <=? n) && (n <=? 90))%nat then ascii_of_nat (n + 32) else c.

Fixpoint all_bytes (p : ascii -> bool) (s : string) : bool :=
  match s with
  | EmptyString => true
  | String c rest => p c && all_bytes p rest
  end.



Fixpoint map_bytes (f : ascii -> ascii) (s : string) : string :=
  match s with
  | EmptyString => ""
  | String c rest => String (f c) (map_bytes f rest)
  end.

Section Lowering.

(** [strings.ToLower] lowers an all-ASCII string byte by byte; a string
    with a byte above 0x7f is decoded as UTF-8 and mapped through
    [unicode.ToLower], whose tables belong to the Go library: that
    path is the parameter [unicodeLower]. *)
Variable unicodeLower : string -> string.

Definition ToLower (s : string) : string :=
  if all_bytes is_ascii s then map_bytes lower_byte s else unicodeLower s.

End Lowering.

(* ================================================================== *)
(** ** [SQLShim]: the stored SQL procedures *)

Section Shim.

(** The state behind a [*sql.DB]. *)
Variable DB : Type.

(** [type SQLShim struct]. *)
Record SQLShim : Type := mkShim {
  setup : string;
  lookup : string;
  insert : string;
  db : option DB
}.

Definition set_setup (s : SQLShim) (v : string) : SQLShim :=
  mkShim v (lookup s) (insert s) (db s).
Definition set_lookup (s : SQLShim) (v : string) : SQLShim :=
  mkShim (setup s) v (insert s) (db s).
Definition set_insert (s : SQLShim) (v : string) : SQLShim :=
  mkShim (setup s) (lookup s) v (db s).
Definition set_db (s : SQLShim) (v : option DB) : SQLShim :=
  mkShim (setup s) (lookup s) (insert s) v.

End Shim.

Arguments mkShim {DB} _ _ _ _.

Definition rawSetup : string :=
  "CREATE TABLE IF NOT EXISTS barcodes(" ++ LF ++ TAB ++ TAB ++
  "id      %s          PRIMARY KEY," ++ LF ++ TAB ++ TAB ++
  "barcode varchar(50) NOT NULL UNIQUE," ++ LF ++ TAB ++ TAB ++
  "isbn    text        NOT NULL," ++ LF ++ TAB ++ TAB ++
  "author  text        NOT NULL," ++ LF ++ TAB ++ TAB ++
  "title   text        NOT NULL);".

Definition rawLookup : string :=
  "SELECT isbn,author,title FROM barcodes WHERE barcode=(?);".

Definition rawInsert : string :=
  "INSERT INTO barcodes(barcode,isbn,author,title)" ++ LF ++ TAB ++ TAB ++
  "SELECT ?,?,?,?" ++ LF ++ TAB ++ TAB ++
  "WHERE NOT EXISTS (SELECT * FROM barcodes WHERE barcode=(?));".

(** The loop of [varReplace]: [builder] is the text written so far and
    [varIndex] the number the next marker gets.  [range src] yields
    runes; on a valid UTF-8 string no byte of a multi-byte rune is ['?']
    and [WriteRune] writes the bytes it read, so the loop is the same
    byte by byte.  (On a byte that is not valid UTF-8 the loop of the
    code writes U+FFFD; the statements the shim compiles are ASCII, and
    no other text is passed.)  [varIndex] is a Go [int]: it is printed at most once
    per byte of [src], so it cannot wrap before its last use. *)
Fixpoint varReplace_loop (src varPrefix builder : string) (varIndex : Z)
  : string :=
  match src with
  | EmptyString => builder
  | String r rest =>
      if Ascii.eqb r "?"
      then varReplace_loop rest varPrefix
             (builder ++ Sprintf "%s" [varPrefix] ++ dec varIndex)
             (varIndex + 1)
      else varReplace_loop rest varPrefix (builder ++ String r "") varIndex
  end.

(** [varReplace]; a [strings.Builder] never fails to write. *)
Definition varReplace (src varPrefix : string) : string * option error :=
  (varReplace_loop src varPrefix "" 1, None).

Section Procedures.

Variable unicodeLower : string -> string.
Variable DB : Type.

(** The [switch] of [InitProcedures]: the primary-key type and the
    marker prefix of a database type, [None] for the [default] case. *)
Definition dialect_case (lowered : string) : option (string * string) :=
  let idInfo := "int GENERATED BY DEFAULT AS IDENTITY" in
  let varPrefix := "" in
  if lowered =? "mysql" then Some ("int AUTO_INCREMENT", varPrefix)
  else if lowered =? "sqlite" then Some ("integer", varPrefix)
  else if lowered =? "postgres" then Some (idInfo, "$")
  else None.

(** [func (s *SQLShim) InitProcedures(dbType string) (error)]: the shim
    after the call and the error returned. *)
Definition InitProcedures (dbType : string) (s : SQLShim DB)
  : M (SQLShim DB * option error) :=
  if dbType =? "" then log_Fatalln [LStr "Database type is empty!"]
  else
    match dialect_case (ToLower unicodeLower dbType) with
    | None => ret (s, Some (Errorf ("Unknown database type " ++ dbType)))
    | Some (idInfo, varPrefix) =>
        let s := set_setup s (Sprintf rawSetup [idInfo]) in
        let s := set_insert (set_lookup s rawLookup) rawInsert in
        if negb (varPrefix =? "") then
          let (lookup', err) := varReplace rawLookup varPrefix in
          match err with
          | Some e => ret (s, Some e)
          | None =>
              let (insert', err) := varReplace rawInsert varPrefix in
              match err with
              | Some e => ret (s, Some e)
              | None =>
                  ret (set_insert (set_lookup s lookup') insert', None)
              end
          end
        else ret (s, None)
    end.

End Procedures.

(* ================================================================== *)
(** ** [database/sql] as the shim sees it *)

(** The rows of a result set, each a list of column values, in the order
    [rows.Next] yields them.  An error met while stepping through the
    rows, which the shim never asks for ([rows.Err] is not called), has
    no place in it. *)
Definition Rows : Type := list (list string).

(** What the shim asks of a [*sql.DB] whose state has type [DB]:
    [db.Exec(query, args...)] and [db.Query(query, args...)]. *)
Class SQLDriver (DB : Type) : Type := {
  db_Exec : string -> list string -> DB -> DB * option error;
  db_Query : string -> list string -> DB -> DB * (error + Rows)
}.

(** [rows.Scan(&tmp.ISBN, &tmp.Author, &tmp.Title)]. *)
Definition Scan3 (row : list string) : error + (string * string * string) :=
  match row with
  | [c1; c2; c3] => inr (c1, c2, c3)
  | _ => inl (DriverError
                ("sql: expected " ++ dec (Z.of_nat (List.length row)) ++
                 " destination arguments in Scan, not 3"))
  end.

Section ShimOperations.

Context {DB : Type} `{SQLDriver DB}.

(** [func (s *SQLShim) SetupDatabase(db *sql.DB) (error)]. *)
Definition SetupDatabase (d : option DB) (s : SQLShim DB)
  : M (SQLShim DB * option error) :=
  match d with
  | None => log_Fatalln [LStr "Database is nil!"]
  | Some d0 =>
      let (d1, err) := db_Exec (setup s) [] d0 in
      ret (set_db s (Some d1), err)
  end.

(** [func (s *SQLShim) Lookup(barcode string)]: the item and the error
    returned, and the shim with the state its database is left in. *)
Definition SQLShim_Lookup (barcode : string) (s : SQLShim DB)
  : M (option BarcodeItem * option error * SQLShim DB) :=
  match db s with
  | None => log_Fatalln [LStr "Database is nil!"]
  | Some d =>
      if barcode =? "" then log_Fatalln [LStr "Empty barcode!"]
      else
        let (d', q) := db_Query (lookup s) [barcode] d in
        let s' := set_db s (Some d') in
        match q with
        | inl err => ret (None, Some err, s')
        | inr [] => ret (None, None, s')
        | inr (row :: _) =>
            match Scan3 row with
            | inl err => ret (None, Some err, s')
            | inr (isbn, author, title) =>
                ret (Some (mkItem barcode isbn author title), None, s')
            end
        end
  end.

(** [func (s *SQLShim) Store(item *BarcodeItem) (error)]. *)
Definition SQLShim_Store (item : option BarcodeItem) (s : SQLShim DB)
  : M (option error * SQLShim DB) :=
  match db s with
  | None => log_Fatalln [LStr "Database is nil!"]
  | Some d =>
      match item with
      | None => log_Fatalln [LStr "Item is nil!"]
      | Some it =>
          if Barcode it =? "" then log_Fatalln [LStr "Barcode is empty!"]
          else
            let (d', err) :=
              db_Exec (insert s)
                [Barcode it; ISBN it; Author it; Title it; Barcode it] d in
            ret (err, set_db s (Some d'))
      end
  end.

End ShimOperations.

(* ================================================================== *)
(** ** [BarcodeServerInterface] and its implementations *)

(** The two operations of [BarcodeServerInterface] that the handler
    calls, over the state [S] of the implementing type.  [Startup] and
    [Shutdown] open and close connections and are not called while a
    request is served. *)
Class BarcodeServerInterface (S : Type) : Type := {
  Lookup : string -> S -> M (option BarcodeItem * S);
  Store : option BarcodeItem -> S -> M S
}.

Section SQLServers.

Context {DB : Type} `{SQLDriver DB}.

(** [type SQLiteServer struct]. *)
Record SQLiteServer : Type := mkSQLite { sqlite_shim : SQLShim DB }.

Definition SQLiteServer_Lookup (barcode : string) (s : SQLiteServer)
  : M (option BarcodeItem * SQLiteServer) :=
  '(result, err, shim') <- SQLShim_Lookup barcode (sqlite_shim s) ;;
  boom err "Unable to lookup item" ;;;
  ret (result, mkSQLite shim').

Definition SQLiteServer_Store (item : option BarcodeItem) (s : SQLiteServer)
  : M SQLiteServer :=
  '(err, shim') <- SQLShim_Store item (sqlite_shim s) ;;
  boom err "Unable to store item" ;;;
  ret (mkSQLite shim').

(** [type PostgresServer struct]. *)
Record PostgresServer : Type := mkPostgres { postgres_shim : SQLShim DB }.

Definition PostgresServer_Lookup (barcode : string) (s : PostgresServer)
  : M (option BarcodeItem * PostgresServer) :=
  '(result, err, shim') <- SQLShim_Lookup barcode (postgres_shim s) ;;
  boom err "Unable to lookup item" ;;;
  ret (result, mkPostgres shim').

Definition PostgresServer_Store (item : option BarcodeItem)
  (s : PostgresServer) : M PostgresServer :=
  log_Println [LItem item] ;;;
  '(err, shim') <- SQLShim_Store item (postgres_shim s) ;;
  boom err "Unable to store item" ;;;
  ret (mkPostgres shim').

(** [type MySQLServer struct]. *)
Record MySQLServer : Type := mkMySQL { mysql_shim : SQLShim DB }.

Definition MySQLServer_Lookup (barcode : string) (s : MySQLServer)
  : M (option BarcodeItem * MySQLServer) :=
  '(result, err, shim') <- SQLShim_Lookup barcode (mysql_shim s) ;;
  boom err "Unable to lookup item" ;;;
  ret (result, mkMySQL shim').

Definition MySQLServer_Store (item : option BarcodeItem) (s : MySQLServer)
  : M MySQLServer :=
  '(err, shim') <- SQLShim_Store item (mysql_shim s) ;;
  boom err "Unable to store item" ;;;
  ret (mkMySQL shim').

#[export] Instance SQLiteServer_iface : BarcodeServerInterface SQLiteServer :=
  {| Lookup := SQLiteServer_Lookup; Store := SQLiteServer_Store |}.

#[export] Instance PostgresServer_iface
  : BarcodeServerInterface PostgresServer :=
  {| Lookup := PostgresServer_Lookup; Store := PostgresServer_Store |}.

#[export] Instance MySQLServer_iface : BarcodeServerInterface MySQLServer :=
  {| Lookup := MySQLServer_Lookup; Store := MySQLServer_Store |}.

End SQLServers.

Arguments SQLiteServer DB : clear implicits.
Arguments PostgresServer DB : clear implicits.
Arguments MySQLServer DB : clear implicits.

(** [type RandomServer struct {}] has no field: what its [Lookup] reads
    is the process-wide [math/rand] source, kept here as the values the
    source is going to yield and the position reached. *)
Record RandomServer : Type := mkRandom {
  rand_values : nat -> Z;
  rand_pos : nat
}.

(** [rand.Intn(n)]. *)
Definition rand_Intn (n : Z) (s : RandomServer) : Z * RandomServer :=
  (Z.modulo (rand_values s (rand_pos s)) n,
   mkRandom (rand_values s) (S (rand_pos s))).

Definition RandomServer_Lookup (barcode : string) (s : RandomServer)
  : M (option BarcodeItem * RandomServer) :=
  let (r, s') := rand_Intn 1000000 s in
  ret (Some (mkItem barcode ("ISBN" ++ dec r) ("Author" ++ dec r)
               ("Title" ++ dec r)), s').

Definition RandomServer_Store (info : option BarcodeItem) (s : RandomServer)
  : M RandomServer :=
  log_Println [LStr "Store called on read-only random server!"] ;;;
  ret s.

#[export] Instance RandomServer_iface : BarcodeServerInterface RandomServer :=
  {| Lookup := RandomServer_Lookup; Store := RandomServer_Store |}.

(* ================================================================== *)
(** ** [barcodeHandler] *)

(** The part of an [*http.Request] the handler reads: [r.URL.Path],
    [r.RemoteAddr] and the route variables [mux.Vars(r)]. *)
Record Request : Type := mkRequest {
  URL_Path : string;
  RemoteAddr : string;
  Vars : list (string * string)
}.

(** Indexing a Go map of strings: the zero value when the key is absent. *)
Fixpoint map_get (m : list (string * string)) (key : string) : string :=
  match m with
  | [] => ""
  | (k, v) :: rest => if k =? key then v else map_get rest key
  end.

(** An [http.ResponseWriter]: the header set so far, the items whose JSON
    encoding has been written to the body, and whether writing to the
    connection fails. *)
Record ResponseWriter : Type := mkWriter {
  header : list (string * string);
  body : list BarcodeItem;
  broken : bool
}.

(** [w.Header().Set(key, value)]. *)
Definition Header_Set (key value : string) (w : ResponseWriter)
  : ResponseWriter :=
  mkWriter
    ((key, value) :: filter (fun kv => negb (fst kv =? key)) (header w))
    (body w) (broken w).

(** [json.NewEncoder(w).Encode(&result)]. *)
Definition json_Encode (item : BarcodeItem) (w : ResponseWriter)
  : ResponseWriter * option error :=
  if broken w then (w, Some (WriteError "write: broken pipe"))
  else (mkWriter (header w) (body w ++ [item]) false, None).

(** What a run of the handler records: the lines logged, by the handler
    or by a server it calls, and a mark at each contact with a server:
    the answer of the local lookup, the call of the remote lookup and
    its answer, the call of the local store. *)
Inductive event : Type :=
| Logged (l : logline)
| LocalAnswered (barcode : string) (answer : option BarcodeItem)
| RemoteCalled (barcode : string)
| RemoteAnswered (barcode : string) (answer : option BarcodeItem)
| StoreCalled (item : BarcodeItem).

Definition Handler (A : Type) : Type := Run event A.

(** Running code that only logs inside the handler. *)
Definition call {A} (m : M A) : Handler A := (map Logged (fst m), snd m).

Definition DQ : string := String "034"%char "".

Section Handler.

Context {L R : Type}.
Context {local_iface : BarcodeServerInterface L}.
Context {remote_iface : BarcodeServerInterface R}.

(** [func barcodeHandler(w, r, localServer, remoteServer)]: the writer
    and the two servers as the request leaves them. *)
Definition barcodeHandler (w : ResponseWriter) (r : Request)
  (localServer : option L) (remoteServer : option R)
  : Handler (ResponseWriter * option L * option R) :=
  let barcode := map_get (Vars r) "barcode" in
  call (log_Println
          [LStr (Sprintf ("Incoming on %s : barcode " ++ DQ ++ "%s" ++ DQ
                          ++ " (from %s)")
                   [URL_Path r; barcode; RemoteAddr r])]) ;;;
  let w := Header_Set "Content-Type" "application/json" w in
  match localServer with
  | None => ret (w, localServer, remoteServer)
  | Some l0 =>
      if barcode =? "" then ret (w, localServer, remoteServer)
      else
        '(result, l1) <- call (Lookup barcode l0) ;;
        emit (LocalAnswered barcode result) ;;;
        '(result, l2, remote') <-
          match result with
          | Some _ => ret (result, l1, remoteServer)
          | None =>
              call (log_Println
                      [LStr "Not found in local cache; attempting to use remote ..."]) ;;;
              '(result, remote') <-
                match remoteServer with
                | Some r0 =>
                    emit (RemoteCalled barcode) ;;;
                    '(result, r1) <- call (Lookup barcode r0) ;;
                    emit (RemoteAnswered barcode result) ;;;
                    ret (result, Some r1)
                | None =>
                    call (log_Println [LStr "No remote server defined!"]) ;;;
                    ret (None, None)
                end ;;
              l2 <-
                match result with
                | Some item =>
                    emit (StoreCalled item) ;;;
                    call (Store result l1)
                | None => ret l1
                end ;;
              ret (result, l2, remote')
          end ;;
        match result with
        | Some item =>
            call (log_Println [LStr "Result: "; LItem result]) ;;;
            let (w', err) := json_Encode item w in
            match err with
            | Some _ => call (log_Fatalln [LStr "Unable to write to output"])
            | None => ret (w', Some l2, remote')
            end
        | None =>
            call (log_Println [LStr "No result was located"]) ;;;
            ret (w, Some l2, remote')
        end
  end.

End Handler.

(** The number of times a run contacted the remote source. *)
Fixpoint remote_contacts (trace : list event) : nat :=
  match trace with
  | [] => 0
  | RemoteCalled _ :: rest => S (remote_contacts rest)
  | _ :: rest => remote_contacts rest
  end.

(** The number of times a run called the local store. *)
Fixpoint store_calls (trace : list event) : nat :=
  match trace with
  | [] => 0
  | StoreCalled _ :: rest => S (store_calls rest)
  | _ :: rest => store_calls rest
  end.

(* ================================================================== *)
(** ** A relational engine behind [database/sql]

    The engines are not part of the repository.  This model keeps what
    the three statements of the shim mean: one table [barcodes] with an
    engine-assigned [id] and a unique [barcode]; a statement is
    understood when it is the text of one of the three procedures in a
    marker syntax the engine accepts ([?] for MySQL, [$n] for PostgreSQL,
    either for SQLite, as the head of [SQL.go] lists them).  Keys are
    compared as the column [barcode varchar(50)] compares them: byte by
    byte on SQLite and PostgreSQL, by the weights of its collation on
    MySQL.  Anything else an engine or a connection can fail on is a
    fault: [faults] tells, call after call, what happens to the next
    driver call. *)

(** An engine; MySQL comes with the collation of its text columns, given
    as the weight two strings must share to compare equal. *)
Inductive Engine : Type :=
| MySQL (weight : string -> string)
| Postgres
| SQLite.

(** The collation that compares byte by byte. *)
Definition binary : string -> string := fun k => k.

Definition weight_of (e : Engine) : string -> string :=
  match e with
  | MySQL weight => weight
  | Postgres | SQLite => binary
  end.

(** What happens to a driver call.  [Served]: the engine runs the
    statement, and [rows.Next] yields every row.  [CallFails]: the call
    returns an error of the connection or of the engine, whatever the
    statement (a lost connection, a time-out, a value the engine does
    not admit in the column, as a key longer than the 50 characters of
    [barcode] is on PostgreSQL).  [RowsCut n]: the engine runs the
    statement and [rows.Next], after [n] rows, returns false on an error
    that only [rows.Err] would tell. *)
Inductive Fault : Type :=
| Served
| CallFails
| RowsCut (n : nat).

Record Row : Type := mkRow {
  row_id : Z;
  row_barcode : string;
  row_isbn : string;
  row_author : string;
  row_title : string
}.

Record RelDB : Type := mkRelDB {
  engine : Engine;
  table : option (list Row);
  faults : list Fault
}.

Inductive Statement : Type :=
| CreateTable
| SelectByBarcode
| InsertIfAbsent.

Definition primary_key_type (e : Engine) : string :=
  match e with
  | MySQL _ => "int AUTO_INCREMENT"
  | Postgres => "int GENERATED BY DEFAULT AS IDENTITY"
  | SQLite => "integer"
  end.

Definition create_table_text (e : Engine) : string :=
  "CREATE TABLE IF NOT EXISTS barcodes(" ++ LF ++ TAB ++ TAB ++
  "id      " ++ primary_key_type e ++ "          PRIMARY KEY," ++
  LF ++ TAB ++ TAB ++
  "barcode varchar(50) NOT NULL UNIQUE," ++ LF ++ TAB ++ TAB ++
  "isbn    text        NOT NULL," ++ LF ++ TAB ++ TAB ++
  "author  text        NOT NULL," ++ LF ++ TAB ++ TAB ++
  "title   text        NOT NULL);".

Definition select_text (numbered : bool) : string :=
  if numbered
  then "SELECT isbn,author,title FROM barcodes WHERE barcode=($1);"
  else "SELECT isbn,author,title FROM barcodes WHERE barcode=(?);".

Definition insert_text (numbered : bool) : string :=
  if numbered
  then "INSERT INTO barcodes(barcode,isbn,author,title)" ++ LF ++ TAB ++ TAB
       ++ "SELECT $1,$2,$3,$4" ++ LF ++ TAB ++ TAB ++
       "WHERE NOT EXISTS (SELECT * FROM barcodes WHERE barcode=($5));"
  else "INSERT INTO barcodes(barcode,isbn,author,title)" ++ LF ++ TAB ++ TAB
       ++ "SELECT ?,?,?,?" ++ LF ++ TAB ++ TAB ++
       "WHERE NOT EXISTS (SELECT * FROM barcodes WHERE barcode=(?));".

(** Whether an engine accepts the numbered ([true]) or the generic
    ([false]) marker syntax. *)
Definition accepts (e : Engine) (numbered : bool) : bool :=
  match e, numbered with
  | MySQL _, true => false
  | Postgres, false => false
  | _, _ => true
  end.

Definition parse (e : Engine) (stmt : string) : option Statement :=
  if stmt =? create_table_text e then Some CreateTable
  else if (accepts e false && (stmt =? select_text false))
          || (accepts e true && (stmt =? select_text true))
  then Some SelectByBarcode
  else if (accepts e false && (stmt =? insert_text false))
          || (accepts e true && (stmt =? insert_text true))
  then Some InsertIfAbsent
  else None.

(** The row has the key, as the engine compares keys. *)
Definition has_barcode (e : Engine) (key : string) (r : Row) : bool :=
  weight_of e (row_barcode r) =? weight_of e key.

(** The [id] the engine gives a new row. *)
Definition next_id (rows : list Row) : Z :=
  1 + fold_right (fun r m => Z.max (row_id r) m) 0%Z rows.

(** A statement run on the table: the table it leaves and the rows it
    yields.  The conditional insert adds a row only when no row has the
    barcode bound to its last marker. *)
Definition run_statement (e : Engine) (st : Statement) (args : list string)
  (tbl : option (list Row)) : error + (option (list Row) * Rows) :=
  match st, args, tbl with
  | CreateTable, [], None => inr (Some [], [])
  | CreateTable, [], Some rows => inr (Some rows, [])
  | SelectByBarcode, [key], Some rows =>
      inr (Some rows,
           map (fun r => [row_isbn r; row_author r; row_title r])
             (filter (has_barcode e key) rows))
  | InsertIfAbsent, [b; i; a; t; key], Some rows =>
      if existsb (has_barcode e key) rows then inr (Some rows, [])
      else if existsb (has_barcode e b) rows
      then inl (DriverError "UNIQUE constraint failed: barcodes.barcode")
      else inr (Some (rows ++ [mkRow (next_id rows) b i a t]), [])
  | (SelectByBarcode | InsertIfAbsent), ([_] | [_; _; _; _; _]), None =>
      inl (DriverError "no such table: barcodes")
  | _, _, _ => inl (DriverError "wrong number of arguments")
  end.

(** One driver call: the fault due for it, then the statement; the rows
    are those the statement selects. *)
Definition driver_call (stmt : string) (args : list string) (d : RelDB)
  : RelDB * (error + Rows) :=
  match faults d with
  | CallFails :: later =>
      (mkRelDB (engine d) (table d) later,
       inl (DriverError "driver: bad connection"))
  | _ =>
      let d := mkRelDB (engine d) (table d) (tl (faults d)) in
      match parse (engine d) stmt with
      | None => (d, inl (DriverError "syntax error"))
      | Some st =>
          match run_statement (engine d) st args (table d) with
          | inl e => (d, inl e)
          | inr (tbl, rows) => (mkRelDB (engine d) tbl (faults d), inr rows)
          end
      end
  end.

(** The rows [rows.Next] yields of those a query selects, by the fault
    due for the call. *)
Definition yielded (fs : list Fault) (rows : Rows) : Rows :=
  match fs with
  | RowsCut n :: _ => firstn n rows
  | _ => rows
  end.

#[export] Instance RelDB_driver : SQLDriver RelDB := {|
  db_Exec := fun stmt args d =>
    let (d', r) := driver_call stmt args d in
    (d', match r with inl e => Some e | inr _ => None end);
  db_Query := fun stmt args d =>
    let (d', r) := driver_call stmt args d in
    (d', match r with
         | inl e => inl e
         | inr rows => inr (yielded (faults d) rows)
         end)
|}.

(** The rows stored for a key, as items. *)
Definition stored (key : string) (d : RelDB) : list BarcodeItem :=
  match table d with
  | None => []
  | Some rows =>
      map (fun r => mkItem (row_barcode r) (row_isbn r) (row_author r)
                      (row_title r))
        (filter (has_barcode (engine d) key) rows)
  end.

(** What a lookup of a key finds on a database: the key asked for with
    the three other columns of the first row stored for it. *)
Definition first_stored (key : string) (s : SQLShim RelDB)
  : option BarcodeItem :=
  match db s with
  | None => None
  | Some d =>
      match table d with
      | None => None
      | Some rows =>
          hd_error
            (map (fun r => mkItem key (row_isbn r) (row_author r)
                             (row_title r))
               (filter (has_barcode (engine d) key) rows))
      end
  end.

(** The fault due for the next call on the database of a shim. *)
Definition due (s : SQLShim RelDB) : Fault :=
  match db s with
  | None => Served
  | Some d => hd Served (faults d)
  end.

(** What a lookup returns by the fault due for its query, [found] being
    the first row stored for the key: the error of the call when it
    fails, nil and no error when [rows.Next] fails before the first row,
    and [found] otherwise. *)
Definition lookup_answer (f : Fault) (found : option BarcodeItem)
  : option BarcodeItem * option error :=
  match f with
  | CallFails => (None, Some (DriverError "driver: bad connection"))
  | RowsCut O => (None, None)
  | Served | RowsCut (S _) => (found, None)
  end.

(** The next [n] calls are served, with all their rows. *)
Fixpoint served_next (n : nat) (fs : list Fault) : bool :=
  match n, fs with
  | O, _ => true
  | S _, [] => true
  | S n', Served :: later => served_next n' later
  | S _, _ :: _ => false
  end.

(** The engine is the one of the database type. *)
Definition serves (e : Engine) (what : string) : Prop :=
  match e with
  | MySQL _ => what = "mysql"
  | Postgres => what = "postgres"
  | SQLite => what = "sqlite"
  end.

Definition stored_in (key : string) (s : SQLShim RelDB) : list BarcodeItem :=
  match db s with
  | None => []
  | Some d => stored key d
  end.

(** What each [Startup] does once [sql.Open] has returned the handle
    [d]: [InitProcedures], [SetupDatabase], and [boom] on either error. *)
Definition start_shim {DB} `{SQLDriver DB} (unicodeLower : string -> string)
  (what : string) (d : DB) (s : SQLShim DB) : M (SQLShim DB) :=
  '(s, err) <- InitProcedures unicodeLower what s ;;
  boom err "Unable to initialize procedures" ;;;
  '(s, err) <- SetupDatabase (Some d) s ;;
  boom err "Unable to set up database " ;;;
  ret s.

(* ================================================================== *)
(** ** Vocabulary of the properties *)

(** The number of generic markers [?] in a statement. *)
Fixpoint count_markers (s : string) : nat :=
  match s with
  | EmptyString => 0
  | String c rest =>
      if Ascii.eqb c "?" then S (count_markers rest) else count_markers rest
  end.

(** A generic marker left in a statement is unresolved when the database
    type writes its markers with a prefix of its own. *)
Definition unresolved_markers (varPrefix stmt : string) : nat :=
  if varPrefix =? "" then 0 else count_markers stmt.

(** A statement cut at its generic markers: the text before the first
    marker, and the text that follows each marker. *)
Fixpoint split_markers (s : string) : string * list string :=
  match s with
  | EmptyString => ("", [])
  | String c rest =>
      let (head, tails) := split_markers rest in
      if Ascii.eqb c "?" then ("", head :: tails) else (String c head, tails)
  end.

(** The texts that follow the markers, each behind its numbered marker,
    the numbers counting up from [n]. *)
Fixpoint numbered (varPrefix : string) (n : Z) (tails : list string) : string :=
  match tails with
  | [] => ""
  | t :: more => varPrefix ++ dec n ++ t ++ numbered varPrefix (n + 1) more
  end.

(** The statement in which the k-th generic marker, from the left and
    from 1, is replaced by the prefix and k. *)
Definition rewrite_markers (varPrefix src : string) : string :=
  let (head, tails) := split_markers src in
  head ++ numbered varPrefix 1 tails.

Definition digit_of (c : ascii) : option Z :=
  let n := nat_of_ascii c in
  if ((48 <=? n) && (n <=? 57))%nat then Some (Z.of_nat (n - 48)) else None.

(** The numbers of the [$n] markers of a statement, left to right.
    [reading] is [Some None] just after a [$] and [Some (Some n)] while
    the digits of [n] are being read. *)
Fixpoint marker_numbers_from (s : string) (reading : option (option Z))
  : list Z :=
  let flush :=
    match reading with Some (Some n) => [n] | _ => [] end in
  match s with
  | EmptyString => flush
  | String c rest =>
      match reading, digit_of c with
      | Some None, Some d => marker_numbers_from rest (Some (Some d))
      | Some (Some n), Some d =>
          marker_numbers_from rest (Some (Some (10 * n + d)%Z))
      | _, _ =>
          flush ++
          marker_numbers_from rest
            (if Ascii.eqb c "$" then Some None else None)
      end
  end.

Definition marker_numbers (s : string) : list Z := marker_numbers_from s None.

(** What a call of [InitProcedures] comes to: the process exits, an error
    is returned, or the three statements are compiled. *)
Inductive Compiled : Type :=
| CompileExit (out : list logline)
| CompileError (e : error)
| Profile (setup_stmt lookup_stmt insert_stmt : string).

Definition compiled {DB} (m : M (SQLShim DB * option error)) : Compiled :=
  match m with
  | (out, None) => CompileExit out
  | (_, Some (_, Some e)) => CompileError e
  | (_, Some (s, None)) => Profile (setup s) (lookup s) (insert s)
  end.

(** The call ends in [log.Fatalln] and the exit of the process: it
    returns nothing. *)
Definition fatal {A} (m : M A) : Prop :=
  exists before args, m = (before ++ [Fatalln args], None).

(** Along a trace, every call of the remote lookup is for [barcode] and
    comes after the local lookup of [barcode] answered with no item;
    [missed] tells whether that answer has been seen. *)
Fixpoint remote_after_miss (barcode : string) (missed : bool)
  (trace : list event) : bool :=
  match trace with
  | [] => true
  | LocalAnswered b None :: rest =>
      remote_after_miss barcode (missed || (b =? barcode)) rest
  | RemoteCalled b :: rest =>
      (b =? barcode) && missed && remote_after_miss barcode missed rest
  | _ :: rest => remote_after_miss barcode missed rest
  end.

(** A shim that [InitProcedures] has not run on. *)
Definition blank_shim {DB} : SQLShim DB := mkShim "" "" "" None.

(** A supported database type compiles, the shim keeps its database, and
    no statement is left with an unresolved marker. *)
Definition resolved_for {DB} (unicodeLower : string -> string)
  (what : string) (s : SQLShim DB) : Prop :=
  exists idInfo varPrefix s',
    dialect_case what = Some (idInfo, varPrefix) /\
    InitProcedures unicodeLower what s = ret (s', None) /\
    db s' = db s /\
    unresolved_markers varPrefix (setup s') = 0%nat /\
    unresolved_markers varPrefix (lookup s') = 0%nat /\
    unresolved_markers varPrefix (insert s') = 0%nat.

(** The lookup and insert statements are the canonical templates. *)
Definition templates_kept {DB} (unicodeLower : string -> string)
  (what : string) (s : SQLShim DB) : Prop :=
  exists s',
    InitProcedures unicodeLower what s = ret (s', None) /\
    count_markers (setup s') = 0%nat /\
    lookup s' = rawLookup /\ insert s' = rawInsert.

(** What a call leaves of the shim's database handle. *)
Definition db_untouched {DB} (s : SQLShim DB)
  (m : M (SQLShim DB * option error)) : Prop :=
  match snd m with
  | Some (s', _) => db s' = db s
  | None => True
  end.

(** The table behind a shim. *)
Definition table_of (s : SQLShim RelDB) : option (list Row) :=
  match db s with
  | Some d => table d
  | None => None
  end.

Definition row_of (id : Z) (item : BarcodeItem) : Row :=
  mkRow id (Barcode item) (ISBN item) (Author item) (Title item).


(** The line the handler logs first. *)
Definition incoming (r : Request) : event :=
  Logged
    (Println
       [LStr (Sprintf ("Incoming on %s : barcode " ++ DQ ++ "%s" ++ DQ
                       ++ " (from %s)")
                [URL_Path r; map_get (Vars r) "barcode"; RemoteAddr r])]).

(** The writer once the handler has set the content type. *)
Definition prepared (w : ResponseWriter) : ResponseWriter :=
  Header_Set "Content-Type" "application/json" w.

(** The writer once [item] has been written to it. *)
Definition answered (item : BarcodeItem) (w : ResponseWriter)
  : ResponseWriter :=
  mkWriter (header (prepared w)) (body w ++ [item]) false.

(** The end of a run that has [item] to return: the line logged, and
    either the item written or the exit of the process. *)
Definition respond {A} (item : BarcodeItem) (w : ResponseWriter)
  (k : ResponseWriter -> A) : Handler A :=
  if broken w
  then ([Logged (Println [LStr "Result: "; LItem (Some item)]);
         Logged (Fatalln [LStr "Unable to write to output"])], None)
  else ([Logged (Println [LStr "Result: "; LItem (Some item)])],
        Some (k (answered item w))).

(** A run with the events [trace] before it. *)
Definition after {A} (trace : list event) (m : Handler A) : Handler A :=
  (trace ++ fst m, snd m).

Definition not_in_cache : event :=
  Logged
    (Println [LStr "Not found in local cache; attempting to use remote ..."]).

Definition no_result : event :=
  Logged (Println [LStr "No result was located"]).

(** States the examples run on: a request for the barcode 666, a writer
    nothing was written to, the random server about to draw 214304, the
    item it then answers with, and a started SQLite shim over a table
    holding [rows] and a connection with the faults [fs] ahead. *)
Definition request_666 : Request :=
  mkRequest "/api/v1/barcode/666" "127.0.0.1:63386" [("barcode", "666")].

Definition fresh_writer : ResponseWriter := mkWriter [] [] false.

Definition random_214304 : RandomServer := mkRandom (fun _ => 214304%Z) 0.

Definition item_666 : BarcodeItem :=
  mkItem "666" "ISBN214304" "Author214304" "Title214304".

Definition sqlite_shim_over (rows : list Row) (fs : list Fault)
  : SQLShim RelDB :=
  mkShim (create_table_text SQLite) rawLookup rawInsert
    (Some (mkRelDB SQLite (Some rows) fs)).

(** The cache of a SQLite server holding [item_666], and the same cache
    empty, with the connection faults [fs] ahead. *)
Definition cache_with_666 : SQLiteServer RelDB :=
  mkSQLite (sqlite_shim_over [row_of 1 item_666] []).

Definition empty_cache (fs : list Fault) : SQLiteServer RelDB :=
  mkSQLite (sqlite_shim_over [] fs).

(** The line [boom] exits on. *)
Definition boom_line (msg : string) (e : error) : logline :=
  Fatalln [LStr msg; LStr "("; LErr e; LStr ")"].

(* ================================================================== *)
(** ** [Startup] and [Shutdown] of the database servers *)

(** What [os.Stat] tells of a path: the file is there, as a directory or
    not; it is not there; or the call failed otherwise. *)
Inductive StatResult : Type :=
| StatInfo (isDir : bool)
| StatNotExist
| StatFailed.

Section Lifecycle.

Context {DB : Type} `{SQLDriver DB}.

Variable unicodeLower : string -> string.

(** [sql.Open(driverName, dataSourceName)]: the handle and the error. *)
Variable sql_Open : string -> string -> option DB * option error.

(** [os.Stat(name)]. *)
Variable os_Stat : string -> StatResult.

(** [func (s *SQLiteServer) Shutdown()].  The error of [Close] is dropped
    by the code, and the handle is let go: nothing reaches the closed
    database through the server any more. *)
Definition SQLiteServer_Shutdown (s : SQLiteServer DB) : SQLiteServer DB :=
  mkSQLite (set_db (sqlite_shim s) None).

Definition PostgresServer_Shutdown (s : PostgresServer DB)
  : PostgresServer DB :=
  mkPostgres (set_db (postgres_shim s) None).

Definition MySQLServer_Shutdown (s : MySQLServer DB) : MySQLServer DB :=
  mkMySQL (set_db (mysql_shim s) None).

(** [func (s *SQLiteServer) Startup(params string)].  [os.Create] has its
    result dropped by the code.  When [os.Stat] fails otherwise than with
    "not exist", [info] is nil and [info.IsDir()] panics: the process
    ends with no line logged. *)
Definition SQLiteServer_Startup (params : string) (s : SQLiteServer DB)
  : M (SQLiteServer DB) :=
  let s := SQLiteServer_Shutdown s in
  let filePath := params in
  let creating :=
    log_Println [LStr ("Database file '" ++ filePath
                       ++ "' does not exist; creating ...")] in
  match os_Stat filePath with
  | StatNotExist => creating
  | StatInfo true => creating
  | StatInfo false => ret tt
  | StatFailed => ([], None)
  end ;;;
  let (d, err) := sql_Open "sqlite3" filePath in
  boom err ("Unable to open SQLite database " ++ filePath) ;;;
  '(shim, err) <- InitProcedures unicodeLower "SQLite" (sqlite_shim s) ;;
  boom err "Unable to initialize procedures" ;;;
  '(shim, err) <- SetupDatabase d shim ;;
  boom err "Unable to set up database " ;;;
  ret (mkSQLite shim).

(** [func (s *PostgresServer) Startup(params string)]. *)
Definition PostgresServer_Startup (params : string) (s : PostgresServer DB)
  : M (PostgresServer DB) :=
  let s := PostgresServer_Shutdown s in
  let what := "postgres" in
  let connStr := params in
  let (d, err) := sql_Open what connStr in
  boom err ("Unable to open " ++ what ++ " database " ++ connStr) ;;;
  '(shim, err) <- InitProcedures unicodeLower what (postgres_shim s) ;;
  boom err "Unable to initialize procedures" ;;;
  '(shim, err) <- SetupDatabase d shim ;;
  boom err "Unable to set up database " ;;;
  ret (mkPostgres shim).

(** [func (s *MySQLServer) Startup(params string)]. *)
Definition MySQLServer_Startup (params : string) (s : MySQLServer DB)
  : M (MySQLServer DB) :=
  let s := MySQLServer_Shutdown s in
  let what := "mysql" in
  let connStr := params in
  let (d, err) := sql_Open what connStr in
  boom err ("Unable to open " ++ what ++ " database " ++ connStr) ;;;
  '(shim, err) <- InitProcedures unicodeLower what (mysql_shim s) ;;
  boom err "Unable to initialize procedures" ;;;
  '(shim, err) <- SetupDatabase d shim ;;
  boom err "Unable to set up database " ;;;
  ret (mkMySQL shim).

End Lifecycle.

(** A shim is ready for a database type when it holds a database and the
    three statements [InitProcedures] compiles for that type. *)
Definition ready {DB} (unicodeLower : string -> string) (what : string)
  (s : SQLShim DB) : Prop :=
  db s <> None /\
  compiled (InitProcedures unicodeLower what (@blank_shim DB))
  = Profile (setup s) (lookup s) (insert s).


(** The item a run got from its sources: the one the local lookup
    answered with, or else the one the remote lookup answered with. *)
Fixpoint answer_of (trace : list event) : option BarcodeItem :=
  match trace with
  | [] => None
  | LocalAnswered _ (Some item) :: _ => Some item
  | RemoteAnswered _ (Some item) :: _ => Some item
  | _ :: rest => answer_of rest
  end.

(** A connection that opens on the database [d] whatever it is asked. *)
Definition opens_on {DB} (d : DB) : string -> string -> option DB * option error :=
  fun _ _ => (Some d, None).

(** The items a run called the local store with, and the items the
    remote lookup answered with, in the order of the run. *)
Fixpoint stored_items (trace : list event) : list BarcodeItem :=
  match trace with
  | [] => []
  | StoreCalled item :: rest => item :: stored_items rest
  | _ :: rest => stored_items rest
  end.

Fixpoint remote_items (trace : list event) : list BarcodeItem :=
  match trace with
  | [] => []
  | RemoteAnswered _ (Some item) :: rest => item :: remote_items rest
  | _ :: rest => remote_items rest
  end.

(** A request that carries no barcode. *)
Definition request_without_barcode : Request :=
  mkRequest "/api/v1/barcode/" "127.0.0.1:63386" [].

(* ================================================================== *)
(** ** The choice of the local server in [main] *)

(** The database flags of the server, as [flag.Parse] leaves them. *)
Record Flags : Type := mkFlags {
  dbType : string;
  dbName : string;
  dbUser : string;
  dbPass : string;
  dbHost : string;
  dbPort : string
}.

(** The server [main] allocates: each starts from the zero value of its
    struct. *)
Inductive InternalServer (DB : Type) : Type :=
| MySQLBackend (s : MySQLServer DB)
| PostgresBackend (s : PostgresServer DB)
| SQLiteBackend (s : SQLiteServer DB).

Arguments MySQLBackend {DB} s.
Arguments PostgresBackend {DB} s.
Arguments SQLiteBackend {DB} s.

Definition shim_of_backend {DB} (b : InternalServer DB) : SQLShim DB :=
  match b with
  | MySQLBackend s => mysql_shim s
  | PostgresBackend s => postgres_shim s
  | SQLiteBackend s => sqlite_shim s
  end.

(** [if v == "" { v = d }]. *)
Definition or_default (v d : string) : string := if v =? "" then d else v.

Section Main.

Context {DB : Type} `{SQLDriver DB}.

Variable unicodeLower : string -> string.
Variable sql_Open : string -> string -> option DB * option error.
Variable os_Stat : string -> StatResult.

(** The block of [main] that boots the local server: the defaults of the
    flags, the [switch] on the database type that allocates the server
    and builds its parameters, and [internalServer.Startup(params)]. *)
Definition main_internal_server (f : Flags) : M (InternalServer DB) :=
  let dbName := or_default (dbName f) "barcode_cache" in
  let dbHost := or_default (dbHost f) "localhost" in
  let dbUser := or_default (dbUser f) "user" in
  let dbPass := or_default (dbPass f) "password" in
  log_Println [LStr ("Using database type '" ++ dbType f ++ "'")] ;;;
  let lowered := ToLower unicodeLower (dbType f) in
  if lowered =? "mysql" then
    let dbPort := or_default (dbPort f) "3306" in
    let params :=
      Sprintf "%s:%s@%s(%s:%s)/%s"
        [dbUser; dbPass; "tcp"; dbHost; dbPort; dbName] in
    s <- MySQLServer_Startup unicodeLower sql_Open params
           (mkMySQL blank_shim) ;;
    ret (MySQLBackend s)
  else if lowered =? "postgres" then
    let dbPort := or_default (dbPort f) "5432" in
    let params :=
      Sprintf "host=%s port=%s user=%s password=%s dbname=%s sslmode=%s"
        [dbHost; dbPort; dbUser; dbPass; dbName; "disable"] in
    s <- PostgresServer_Startup unicodeLower sql_Open params
           (mkPostgres blank_shim) ;;
    ret (PostgresBackend s)
  else if lowered =? "sqlite" then
    let params := Sprintf "%s.sqlite.db" [dbName] in
    s <- SQLiteServer_Startup unicodeLower sql_Open os_Stat params
           (mkSQLite blank_shim) ;;
    ret (SQLiteBackend s)
  else log_Fatalln [LStr ("Database type unsupported: " ++ dbType f)].

End Main.

(* ================================================================== *)
(** ** [AlmaServer]: the remote source over HTTP *)

(** A JSON value, as [encoding/json] decodes it into [interface{}]. *)
#[local] Unset Elimination Schemes.
Inductive JSON : Type :=
| JNull
| JBool (b : bool)
| JNumber (digits : string)
| JString (s : string)
| JArray (items : list JSON)
| JObject (members : list (string * JSON)).
#[local] Set Elimination Schemes.

(** [m[name]] on the map an object decodes to: of several members of one
    name the last one is kept. *)
Fixpoint member (members : list (string * JSON)) (name : string)
  : option JSON :=
  match members with
  | [] => None
  | (k, v) :: rest =>
      match member rest name with
      | Some later => Some later
      | None => if k =? name then Some v else None
      end
  end.

(** [result.ISBN, _ = y.(string)]. *)
Definition as_string (v : JSON) : string :=
  match v with
  | JString s => s
  | _ => ""
  end.

(** The part of an [*http.Response] the server reads: the status, the
    header and the request as [log.Println] prints them, and the first
    JSON value of the body, if the body starts with one. *)
Record Response : Type := mkResponse {
  StatusCode : Z;
  Status : string;
  Header_text : string;
  Request_text : string;
  Body : option JSON
}.

(** [type AlmaServer struct]. *)
Record AlmaServer : Type := mkAlma { alma_key : string }.

Section Alma.

(** [http.NewRequest(method, url, nil)]: its error. *)
Variable http_NewRequest : string -> string -> option error.

(** [client.Do(req)], by the URL and the header of the request. *)
Variable client_Do : string -> list (string * string) -> error + Response.

(** [func (s *AlmaServer) Startup(params string)]. *)
Definition AlmaServer_Startup (params : string) (s : AlmaServer)
  : AlmaServer :=
  mkAlma params.

Definition alma_URL (barcode : string) : string :=
  Sprintf "%s/items?item_barcode=%s"
    ["https://api-na.hosted.exlibrisgroup.com/almaws/v1"; barcode].

(** [func (s *AlmaServer) Lookup(barcode string)].  The
    error of [Decode] is dropped by the code: a body that is not a JSON
    object leaves the map nil. *)
Definition AlmaServer_Lookup (barcode : string) (s : AlmaServer)
  : M (option BarcodeItem * AlmaServer) :=
  let URL := alma_URL barcode in
  boom (http_NewRequest "GET" URL) "Unable to create HTTP request" ;;;
  let headers :=
    [("Accept", "application/json");
     ("Authorization", Sprintf "apikey %s" [alma_key s])] in
  match client_Do URL headers with
  | inl _ =>
      log_Println [LStr ("Unable to fetch Alma data for barcode " ++ barcode)] ;;;
      ret (None, s)
  | inr resp =>
      if negb (StatusCode resp =? 200)%Z then
        log_Println [LStr "Non-200 return code from Alma server!"] ;;;
        log_Println [LStr "Status: "; LStr (Status resp)] ;;;
        log_Println [LStr "StatusCode: "; LStr (dec (StatusCode resp))] ;;;
        log_Println [LStr "Header: "; LStr (Header_text resp)] ;;;
        log_Println [LStr "Request: "; LStr (Request_text resp)] ;;;
        ret (None, s)
      else
        let m :=
          match Body resp with
          | Some (JObject members) => members
          | _ => []
          end in
        match member m "bib_data" with
        | None =>
            log_Println [LStr "Returned json data has no 'bib_data' value!"] ;;;
            ret (None, s)
        | Some (JObject x) =>
            let field name :=
              match member x name with
              | Some y => as_string y
              | None => ""
              end in
            ret (Some (mkItem barcode (field "isbn") (field "author")
                         (field "title")), s)
        | Some _ =>
            log_Println [LStr "json 'bib_data' is not a map!"] ;;;
            ret (None, s)
        end
  end.



(** The answer has the status 200 and a body that is an object whose
    member [bib_data] is the object [x]. *)
Definition has_bib_data (barcode : string) (s : AlmaServer)
  (x : list (string * JSON)) : Prop :=
  exists resp members,
    client_Do (alma_URL barcode)
      [("Accept", "application/json");
       ("Authorization", Sprintf "apikey %s" [alma_key s])] = inr resp /\
    StatusCode resp = 200%Z /\
    Body resp = Some (JObject members) /\
    member members "bib_data" = Some (JObject x).

End Alma.

(** A network on which every request is built, and one that answers,
    whatever it is asked, with a record of Alma. *)
Definition builds_requests : string -> string -> option error :=
  fun _ _ => None.


Definition alma_answers : string -> list (string * string) -> error + Response :=
  fun _ _ =>
    inr (mkResponse 200 "200 OK" "map[]" "&{GET}"
           (Some (JObject
                    [("bib_data",
                      JObject [("title", JString "Title1");
                               ("author", JString "Author1");
                               ("isbn", JNumber "9780")])]))).

(** What a request that is written through leaves: the run [m] of the
    handler answers with [item] and leaves a local server [l2] whose
    table is [rows] with the item added at its end, and the next request
    [r] on [l2], with the remote source [remote2] or none, contacts no
    remote source, stores nothing and answers with [item]. *)
Definition written_through {L R : Type}
  `{BarcodeServerInterface L} `{BarcodeServerInterface R}
  (shim_of : L -> SQLShim RelDB) (w w2 : ResponseWriter) (r : Request)
  (item : BarcodeItem) (r1 : R) (remote2 : option R)
  (rows : list Row)
  (m : Handler (ResponseWriter * option L * option R)) : Prop :=
  exists l2 l3 : L,
    snd m
    = (if broken w then None else Some (answered item w, Some l2, Some r1)) /\
    table_of (shim_of l2) = Some (rows ++ [row_of (next_id rows) item])%list /\
    remote_contacts (fst (barcodeHandler w2 r (Some l2) remote2)) = 0%nat /\
    store_calls (fst (barcodeHandler w2 r (Some l2) remote2)) = 0%nat /\
    snd (barcodeHandler w2 r (Some l2) remote2)
    = (if broken w2 then None else Some (answered item w2, Some l3, remote2)).

(* ================================================================== *)
(** * Properties *)

Open Scope string_scope.

(** ** Strings *)

Lemma append_nil_r (s : string) : s ++ "" = s.
Proof. induction s as [|c s IH]; simpl; [reflexivity | now rewrite IH]. Qed.

Lemma append_assoc (a b c : string) : (a ++ b) ++ c = a ++ b ++ c.
Proof. induction a as [|x a IH]; simpl; [reflexivity | now rewrite IH]. Qed.

Lemma count_markers_app (a b : string) :
  count_markers (a ++ b) = (count_markers a + count_markers b)%nat.
Proof.
  induction a as [|c a IH]; simpl; [reflexivity|].
  destruct (Ascii.eqb c "?"); simpl; now rewrite IH.
Qed.

Lemma count_markers_digits (d : Decimal.uint) :
  count_markers (NilEmpty.string_of_uint d) = 0%nat.
Proof. induction d; simpl; assumption || reflexivity. Qed.

Lemma count_markers_dec (n : Z) : count_markers (dec n) = 0%nat.
Proof.
  unfold dec, NilZero.string_of_int, NilZero.string_of_uint.
  destruct (Z.to_int n) as [d|d]; destruct d; simpl;
    reflexivity || apply count_markers_digits.
Qed.

Lemma Sprintf_verb_s (a : string) : Sprintf "%s" [a] = a.
Proof. simpl. apply append_nil_r. Qed.

(** ** [varReplace] *)

(** The loop appends to the builder the rest of the statement with its
    markers numbered from [varIndex]. *)
Lemma varReplace_loop_numbered (src varPrefix : string) :
  forall (builder : string) (varIndex : Z),
    varReplace_loop src varPrefix builder varIndex =
    builder ++ fst (split_markers src)
            ++ numbered varPrefix varIndex (snd (split_markers src)).
Proof.
  induction src as [|c src IH]; intros builder varIndex.
  - simpl. now rewrite append_nil_r.
  - cbn [varReplace_loop split_markers].
    destruct (split_markers src) as [head tails] eqn:Hsplit.
    destruct (Ascii.eqb c "?") eqn:Hc.
    + rewrite IH, Sprintf_verb_s. cbn [fst snd numbered append].
      now rewrite !append_assoc.
    + rewrite IH. cbn [fst snd]. rewrite append_assoc. reflexivity.
Qed.

Lemma varReplace_rewrites (src varPrefix : string) :
  varReplace src varPrefix = (rewrite_markers varPrefix src, None).
Proof.
  unfold varReplace, rewrite_markers.
  rewrite varReplace_loop_numbered.
  destruct (split_markers src); reflexivity.
Qed.

(** The cut loses nothing: the statement is its pieces with a generic
    marker before each tail, and no piece holds a marker. *)
Lemma split_markers_join (src : string) :
  src = fst (split_markers src)
        ++ fold_right (fun t rest => "?" ++ t ++ rest) ""
             (snd (split_markers src)).
Proof.
  induction src as [|c src IH]; [reflexivity|].
  cbn [split_markers]. destruct (split_markers src) as [head tails].
  destruct (Ascii.eqb c "?") eqn:Hc; cbn [fst snd fold_right append] in *.
  - apply Ascii.eqb_eq in Hc. subst c. now rewrite <- IH.
  - now rewrite <- IH.
Qed.

Lemma split_markers_clean (src : string) :
  count_markers (fst (split_markers src)) = 0%nat /\
  Forall (fun t => count_markers t = 0%nat) (snd (split_markers src)).
Proof.
  induction src as [|c src [IHh IHt]]; [split; [reflexivity | constructor]|].
  cbn [split_markers]. destruct (split_markers src) as [head tails].
  destruct (Ascii.eqb c "?") eqn:Hc; cbn [fst snd] in *.
  - split; [reflexivity | now constructor].
  - split; [|assumption]. simpl. now rewrite Hc.
Qed.

Lemma count_markers_numbered (varPrefix : string) (tails : list string) :
  count_markers varPrefix = 0%nat ->
  Forall (fun t => count_markers t = 0%nat) tails ->
  forall n, count_markers (numbered varPrefix n tails) = 0%nat.
Proof.
  intros Hp Ht. induction Ht as [|t tails Hz _ IH]; intros n;
    [reflexivity|].
  cbn [numbered].
  now rewrite !count_markers_app, Hp, count_markers_dec, Hz, IH.
Qed.

(** Whatever the statement, rewriting with a prefix that holds no generic
    marker leaves none. *)
Lemma varReplace_leaves_no_marker (src varPrefix : string) :
  count_markers varPrefix = 0%nat ->
  count_markers (fst (varReplace src varPrefix)) = 0%nat.
Proof.
  intros Hp. rewrite varReplace_rewrites. unfold rewrite_markers.
  destruct (split_markers_clean src) as [Hh Ht].
  destruct (split_markers src) as [head tails]. cbn [fst snd] in *.
  rewrite count_markers_app, Hh. now apply count_markers_numbered.
Qed.

(** ** [InitProcedures] *)


(** C6. For each of [mysql], [postgres] and [sqlite], [InitProcedures]
    compiles statements with no unresolved generic marker.  For
    [postgres] no [?] is left in any statement: the k-th [?] of the
    lookup and of the insert template has become [$k], so that the
    markers read 1 in the lookup and 1, 2, 3, 4, 5 in the insert.  For
    [mysql] and [sqlite], whose own marker is [?], the lookup and insert
    statements are the templates unchanged. *)
Theorem InitProcedures_resolves_markers :
  forall (unicodeLower : string -> string) (DB : Type) (s : SQLShim DB),
    resolved_for unicodeLower "mysql" s /\
    resolved_for unicodeLower "postgres" s /\
    resolved_for unicodeLower "sqlite" s /\
    (exists s',
        InitProcedures unicodeLower "postgres" s = ret (s', None) /\
        count_markers (setup s') = 0%nat /\
        count_markers (lookup s') = 0%nat /\
        count_markers (insert s') = 0%nat /\
        lookup s' = rewrite_markers "$" rawLookup /\
        insert s' = rewrite_markers "$" rawInsert /\
        marker_numbers (lookup s') = [1%Z] /\
        marker_numbers (insert s') = [1%Z; 2%Z; 3%Z; 4%Z; 5%Z]) /\
    templates_kept unicodeLower "mysql" s /\
    templates_kept unicodeLower "sqlite" s.
Proof.
  intros unicodeLower DB s.
  repeat split.
  - do 3 eexists. repeat split.
  - do 3 eexists. repeat split.
  - do 3 eexists. repeat split.
  - eexists. repeat split.
  - eexists. repeat split.
  - eexists. repeat split.
Qed.


(** C9. What [InitProcedures] comes to is a function of the database
    type alone: two calls on the same type, on any two shims over any two
    databases, exit alike, or return the same error, or compile the same
    three statements; and a call leaves the database handle as it was. *)
Theorem InitProcedures_deterministic :
  forall (unicodeLower : string -> string) (DB1 DB2 : Type) (dbType : string)
         (s1 : SQLShim DB1) (s2 : SQLShim DB2),
    compiled (InitProcedures unicodeLower dbType s1) =
    compiled (InitProcedures unicodeLower dbType s2) /\
    db_untouched s1 (InitProcedures unicodeLower dbType s1).
Proof.
  intros unicodeLower DB1 DB2 dbType s1 s2.
  unfold InitProcedures, db_untouched.
  destruct (dbType =? ""); [split; reflexivity|].
  destruct (dialect_case (ToLower unicodeLower dbType)) as [[idInfo varPrefix]|];
    [|split; reflexivity].
  destruct (negb (varPrefix =? "")); split; reflexivity.
Qed.




(** ** [SQLShim.Lookup] and [SQLShim.Store] *)

Section ShimCalls.

Context {DB : Type} {driver : SQLDriver DB}.

Lemma fatal_Fatalln {A} (args : list logarg) :
  fatal (@log_Fatalln A args).
Proof. exists [], args. reflexivity. Qed.

Lemma SQLShim_Lookup_empty (s : SQLShim DB) :
  fatal (SQLShim_Lookup "" s).
Proof.
  unfold SQLShim_Lookup. destruct (db s); apply fatal_Fatalln.
Qed.

Lemma SQLShim_Store_empty (s : SQLShim DB) (isbn author title : string) :
  fatal (SQLShim_Store (Some (mkItem "" isbn author title)) s).
Proof.
  unfold SQLShim_Store. destruct (db s); apply fatal_Fatalln.
Qed.

(** A fatal call stays fatal under what follows it. *)
Lemma fatal_bind {A B} (m : M A) (k : A -> M B) :
  fatal m -> fatal (bind m k).
Proof.
  intros (before & args & ->). exists before, args. reflexivity.
Qed.

Lemma fatal_after_Println {A} (args : list logarg) (m : M A) :
  fatal m -> fatal (log_Println args ;;; m).
Proof.
  intros (before & fargs & ->). exists (Println args :: before), fargs.
  reflexivity.
Qed.

(** What [SQLShim.Lookup] does on a key that is not empty, by what the
    query comes to. *)
Lemma SQLShim_Lookup_query (barcode : string) (s : SQLShim DB) (d : DB) :
  barcode <> "" -> db s = Some d ->
  SQLShim_Lookup barcode s =
  let (d', q) := db_Query (lookup s) [barcode] d in
  let s' := set_db s (Some d') in
  match q with
  | inl err => ret (None, Some err, s')
  | inr [] => ret (None, None, s')
  | inr (row :: _) =>
      match Scan3 row with
      | inl err => ret (None, Some err, s')
      | inr (isbn, author, title) =>
          ret (Some (mkItem barcode isbn author title), None, s')
      end
  end.
Proof.
  intros Hne Hdb. unfold SQLShim_Lookup. rewrite Hdb.
  apply String.eqb_neq in Hne. now rewrite Hne.
Qed.

Lemma Scan3_columns (row : list string) (isbn author title : string) :
  Scan3 row = inr (isbn, author, title) -> row = [isbn; author; title].
Proof.
  destruct row as [|c1 [|c2 [|c3 [|c4 row]]]]; simpl; intros E;
    inversion E; reflexivity.
Qed.

End ShimCalls.

(** C8. On any shim, whatever its database and its statements,
    [SQLShim.Lookup] of the empty key and [SQLShim.Store] of an item with
    the empty key end in [log.Fatalln] and the exit of the process, and
    so do [Lookup] and [Store] of the three database servers: no value is
    returned, neither an item, nor a nil "not found", nor a nil error. *)
Theorem empty_key_is_fatal :
  forall (DB : Type) (driver : SQLDriver DB) (s : SQLShim DB)
         (isbn author title : string),
    let item := Some (mkItem "" isbn author title) in
    fatal (SQLShim_Lookup "" s) /\
    fatal (SQLShim_Store item s) /\
    fatal (Lookup "" (mkSQLite s)) /\
    fatal (Store item (mkSQLite s)) /\
    fatal (Lookup "" (mkPostgres s)) /\
    fatal (Store item (mkPostgres s)) /\
    fatal (Lookup "" (mkMySQL s)) /\
    fatal (Store item (mkMySQL s)).
Proof.
  intros DB driver s isbn author title item. subst item.
  pose proof (SQLShim_Lookup_empty s) as Hl.
  pose proof (SQLShim_Store_empty s isbn author title) as Hs.
  repeat split; try assumption;
    try (apply fatal_bind; assumption).
  apply fatal_after_Println, fatal_bind. assumption.
Qed.

(** C10. When [SQLShim.Lookup] returns an item, the key of the item is
    the key that was asked for, which is not empty; no error comes with
    it; and its three other fields are the three columns of the first
    row the query returned. *)
Theorem SQLShim_Lookup_keeps_key :
  forall (DB : Type) (driver : SQLDriver DB) (barcode : string)
         (s s' : SQLShim DB) (out : list logline) (item : BarcodeItem)
         (err : option error),
    SQLShim_Lookup barcode s = (out, Some (Some item, err, s')) ->
    Barcode item = barcode /\
    barcode <> "" /\
    err = None /\
    exists d d' rest,
      db s = Some d /\
      db_Query (lookup s) [barcode] d
      = (d', inr ([ISBN item; Author item; Title item] :: rest)) /\
      s' = set_db s (Some d').
Proof.
  intros DB driver barcode s s' out item err H.
  unfold SQLShim_Lookup in H.
  destruct (db s) as [d|] eqn:Hdb; [|discriminate H].
  destruct (barcode =? "") eqn:Hb; [discriminate H|].
  apply String.eqb_neq in Hb.
  destruct (db_Query (lookup s) [barcode] d) as [d' q] eqn:Hq.
  destruct q as [e|[|row rest]]; try (inversion H; fail).
  destruct (Scan3 row) as [e|[[isbn author] title]] eqn:Hscan;
    [inversion H|].
  apply Scan3_columns in Hscan. inversion H; subst. simpl.
  repeat split; try assumption.
  exists d, d', rest. repeat split; assumption.
Qed.

(** ** The conditional insert on the relational engine *)


Lemma existsb_filter_nil {A} (p : A -> bool) (l : list A) :
  filter p l = [] -> existsb p l = false.
Proof.
  induction l as [|x l IH]; simpl; [reflexivity|].
  destruct (p x); [discriminate | exact IH].
Qed.



(** A driver call that is not failed by its fault parses its statement
    and runs it. *)
Lemma driver_call_unfailed (stmt : string) (args : list string) (d : RelDB) :
  hd Served (faults d) <> CallFails ->
  driver_call stmt args d
  = match parse (engine d) stmt with
    | None => (mkRelDB (engine d) (table d) (tl (faults d)),
               inl (DriverError "syntax error"))
    | Some st =>
        match run_statement (engine d) st args (table d) with
        | inl e => (mkRelDB (engine d) (table d) (tl (faults d)), inl e)
        | inr (tbl, rows) =>
            (mkRelDB (engine d) tbl (tl (faults d)), inr rows)
        end
    end.
Proof.
  unfold driver_call. intros Hf.
  destruct (faults d) as [|[| |n] later]; cbn [hd tl engine table faults] in *;
    try reflexivity.
  now contradiction Hf.
Qed.

(** A driver call that its fault fails leaves the table as it is. *)
Lemma driver_call_failed (stmt : string) (args : list string) (d : RelDB) :
  hd Served (faults d) = CallFails ->
  driver_call stmt args d
  = (mkRelDB (engine d) (table d) (tl (faults d)),
     inl (DriverError "driver: bad connection")).
Proof.
  unfold driver_call. intros Hf.
  destruct (faults d) as [|[| |n] later]; cbn [hd tl] in *;
    try discriminate Hf.
  reflexivity.
Qed.

Lemma fault_cases (f : Fault) : f = CallFails \/ f <> CallFails.
Proof. destruct f; [right | left | right]; congruence. Qed.

Lemma driver_call_returns (stmt : string) (args : list string)
  (d d' : RelDB) (rows : Rows) :
  driver_call stmt args d = (d', inr rows) ->
  exists st tbl,
    parse (engine d) stmt = Some st /\
    run_statement (engine d) st args (table d) = inr (tbl, rows) /\
    engine d' = engine d /\ table d' = tbl.
Proof.
  destruct (fault_cases (hd Served (faults d))) as [Hf|Hf].
  - rewrite (driver_call_failed _ _ _ Hf). discriminate.
  - rewrite (driver_call_unfailed _ _ _ Hf).
    destruct (parse (engine d) stmt) as [st|]; [|discriminate].
    destruct (run_statement (engine d) st args (table d))
      as [e|[tbl rows0]] eqn:Hr; [discriminate|].
    intros H. inversion H; subst. exists st, tbl. now repeat split.
Qed.

Lemma driver_call_fails (stmt : string) (args : list string)
  (d d' : RelDB) (e : error) :
  driver_call stmt args d = (d', inl e) ->
  engine d' = engine d /\ table d' = table d.
Proof.
  destruct (fault_cases (hd Served (faults d))) as [Hf|Hf].
  - rewrite (driver_call_failed _ _ _ Hf). intros H; inversion H; subst.
    now split.
  - rewrite (driver_call_unfailed _ _ _ Hf).
    destruct (parse (engine d) stmt) as [st|].
    + destruct (run_statement (engine d) st args (table d)) as [e0|[tbl rows0]];
        [|discriminate].
      intros H; inversion H; subst. now split.
    + intros H; inversion H; subst. now split.
Qed.




(** ** The compiled statements on the engine of their type *)

Lemma served_next_step (n : nat) (fs : list Fault) :
  served_next (S n) fs = true ->
  hd Served fs = Served /\ served_next n (tl fs) = true.
Proof.
  destruct fs as [|[| |k] later]; cbn [served_next hd tl];
    try discriminate; intros H; split; try reflexivity; try exact H.
  now destruct n.
Qed.

(** The engine of a database type reads the three statements
    [InitProcedures] compiles for that type as the creation of the table,
    the selection by key and the conditional insert. *)
Lemma ready_statements {DB} (unicodeLower : string -> string)
  (what : string) (s : SQLShim DB) (e : Engine) :
  ready unicodeLower what s -> serves e what ->
  parse e (setup s) = Some CreateTable /\
  parse e (lookup s) = Some SelectByBarcode /\
  parse e (insert s) = Some InsertIfAbsent.
Proof.
  intros [_ Hc] He. destruct s as [st lk ins handle].
  cbn [setup lookup insert] in *.
  destruct e as [weight| |]; cbn [serves] in He; subst what;
    vm_compute in Hc; inversion Hc; subst st lk ins;
    repeat split; reflexivity.
Qed.

(** On the engine of its type, with the table created and the call
    served, [SQLShim.Store] of an item with a key returns no error and
    leaves the table with the item added when no row has its key, and as
    it was otherwise. *)
Lemma store_runs (unicodeLower : string -> string) (what : string)
  (s : SQLShim RelDB) (d : RelDB) (rows : list Row) (item : BarcodeItem) :
  ready unicodeLower what s ->
  db s = Some d -> serves (engine d) what ->
  table d = Some rows ->
  hd Served (faults d) = Served ->
  Barcode item <> "" ->
  SQLShim_Store (Some item) s
  = ([], Some (None,
       set_db s (Some (mkRelDB (engine d)
         (Some (if existsb (has_barcode (engine d) (Barcode item)) rows
                then rows
                else (rows ++ [row_of (next_id rows) item])%list))
         (tl (faults d)))))).
Proof.
  intros Hready Hd He Ht Hf Hkey.
  destruct (@ready_statements _ unicodeLower what s (engine d) Hready He) as (_ & _ & Hi).
  unfold SQLShim_Store. rewrite Hd.
  apply String.eqb_neq in Hkey. rewrite Hkey.
  cbn [db_Exec RelDB_driver].
  rewrite driver_call_unfailed by (rewrite Hf; discriminate).
  rewrite Hi, Ht. cbn [run_statement].
  destruct (existsb (has_barcode (engine d) (Barcode item)) rows);
    reflexivity.
Qed.

(** On the engine of its type, with the table created and the call and
    its rows served, [SQLShim.Lookup] of a key returns no error and
    the first row stored for the key, or nil when none is. *)
Lemma lookup_runs (unicodeLower : string -> string) (what : string)
  (s : SQLShim RelDB) (d : RelDB) (rows : list Row) (key : string) :
  ready unicodeLower what s ->
  db s = Some d -> serves (engine d) what ->
  table d = Some rows ->
  hd Served (faults d) = Served ->
  key <> "" ->
  SQLShim_Lookup key s
  = ([], Some (first_stored key s, None,
       set_db s (Some (mkRelDB (engine d) (Some rows) (tl (faults d)))))).
Proof.
  intros Hready Hd He Ht Hf Hkey.
  destruct (@ready_statements _ unicodeLower what s (engine d) Hready He) as (_ & Hl & _).
  unfold SQLShim_Lookup, first_stored. rewrite Hd, Ht.
  apply String.eqb_neq in Hkey. rewrite Hkey.
  cbn [db_Query RelDB_driver].
  rewrite driver_call_unfailed by (rewrite Hf; discriminate).
  rewrite Hl, Ht. cbn [run_statement].
  assert (Hy : forall rs, yielded (faults d) rs = rs).
  { intros rs. unfold yielded.
    destruct (faults d) as [|[| |n] later]; cbn [hd] in Hf;
      try discriminate Hf; reflexivity. }
  rewrite Hy.
  destruct (filter (has_barcode (engine d) key) rows) as [|r rest];
    reflexivity.
Qed.

(** A call leaves a ready shim ready. *)
Lemma ready_after_call {DB} (unicodeLower : string -> string) (what : string)
  (s : SQLShim DB) (d : DB) :
  ready unicodeLower what s -> ready unicodeLower what (set_db s (Some d)).
Proof.
  intros [_ Hc]. split; [discriminate | exact Hc].
Qed.


(** ** The paths of [barcodeHandler] *)

Lemma respond_encodes {A} (item : BarcodeItem) (w : ResponseWriter)
  (k : ResponseWriter -> A) :
  (call (log_Println [LStr "Result: "; LItem (Some item)]) ;;;
   let (w', err) := json_Encode item (prepared w) in
   match err with
   | Some _ => call (log_Fatalln [LStr "Unable to write to output"])
   | None => ret (k w')
   end) = respond item w k.
Proof.
  unfold respond, json_Encode, answered. cbn [prepared Header_Set broken body].
  destruct (broken w); reflexivity.
Qed.

Section Paths.

Local Open Scope list_scope.

Context {L R : Type}.
Context {local_iface : BarcodeServerInterface L}.
Context {remote_iface : BarcodeServerInterface R}.

Variable w : ResponseWriter.
Variable r : Request.

Let barcode : string := map_get (Vars r) "barcode".

(** No local server: the handler returns at once. *)
Lemma handler_without_local (remoteServer : option R) :
  barcodeHandler w r (@None L) remoteServer =
  ([incoming r], Some (prepared w, None, remoteServer)).
Proof. reflexivity. Qed.

(** An empty key: the handler returns at once. *)
Lemma handler_empty_key (localServer : option L) (remoteServer : option R) :
  barcode = "" ->
  barcodeHandler w r localServer remoteServer =
  ([incoming r], Some (prepared w, localServer, remoteServer)).
Proof.
  intros Hb.
  assert (He : (barcode =? "") = true) by (rewrite Hb; reflexivity).
  unfold barcodeHandler. fold barcode. rewrite He.
  destruct localServer; reflexivity.
Qed.

(** The local lookup exits. *)
Lemma handler_local_exit (l0 : L) (remoteServer : option R)
  (out : list logline) :
  barcode <> "" ->
  Lookup barcode l0 = (out, None) ->
  barcodeHandler w r (Some l0) remoteServer =
  (incoming r :: map Logged out, None).
Proof.
  intros Hb Hl. apply String.eqb_neq in Hb.
  unfold barcodeHandler. fold barcode. rewrite Hb, Hl. reflexivity.
Qed.

(** The local lookup answers with an item. *)
Lemma handler_local_hit (l0 l1 : L) (remoteServer : option R)
  (out : list logline) (item : BarcodeItem) :
  barcode <> "" ->
  Lookup barcode l0 = (out, Some (Some item, l1)) ->
  barcodeHandler w r (Some l0) remoteServer =
  after (incoming r :: map Logged out ++ [LocalAnswered barcode (Some item)])
    (respond item w (fun w' => (w', Some l1, remoteServer))).
Proof.
  intros Hb Hl. apply String.eqb_neq in Hb.
  unfold barcodeHandler. fold barcode. rewrite Hb, Hl.
  rewrite <- respond_encodes. unfold after, json_Encode.
  cbn [prepared Header_Set broken body].
  destruct (broken w); cbn; rewrite <- ?app_assoc; reflexivity.
Qed.

(** The local lookup answers with no item and there is no remote
    server. *)
Lemma handler_miss_without_remote (l0 l1 : L) (out : list logline) :
  barcode <> "" ->
  Lookup barcode l0 = (out, Some (None, l1)) ->
  barcodeHandler w r (Some l0) (@None R) =
  (incoming r :: map Logged out ++
     [LocalAnswered barcode None; not_in_cache;
      Logged (Println [LStr "No remote server defined!"]); no_result],
   Some (prepared w, Some l1, None)).
Proof.
  intros Hb Hl. apply String.eqb_neq in Hb.
  unfold barcodeHandler. fold barcode. rewrite Hb, Hl.
  cbn. rewrite <- ?app_assoc. reflexivity.
Qed.

(** The local lookup answers with no item and there is a remote server:
    the run goes on as the remote lookup and the local store decide. *)
Lemma handler_miss_with_remote (l0 l1 : L) (r0 : R) (out : list logline) :
  barcode <> "" ->
  Lookup barcode l0 = (out, Some (None, l1)) ->
  barcodeHandler w r (Some l0) (Some r0) =
  after (incoming r :: map Logged out ++
           [LocalAnswered barcode None; not_in_cache; RemoteCalled barcode])
    match Lookup barcode r0 with
    | (out2, None) => (map Logged out2, None)
    | (out2, Some (None, r1)) =>
        (map Logged out2 ++ [RemoteAnswered barcode None; no_result],
         Some (prepared w, Some l1, Some r1))
    | (out2, Some (Some item, r1)) =>
        after (map Logged out2 ++
                 [RemoteAnswered barcode (Some item); StoreCalled item])
          match Store (Some item) l1 with
          | (out3, None) => (map Logged out3, None)
          | (out3, Some l2) =>
              after (map Logged out3)
                (respond item w (fun w' => (w', Some l2, Some r1)))
          end
    end.
Proof.
  intros Hb Hl. apply String.eqb_neq in Hb.
  unfold barcodeHandler. fold barcode. rewrite Hb, Hl.
  destruct (Lookup barcode r0) as [out2 [[[item|] r1]|]].
  - cbn [call bind emit ret fst snd map log_Println].
    destruct (Store (Some item) l1) as [out3 [l2|]].
    + rewrite <- respond_encodes. unfold after, json_Encode.
      cbn [prepared Header_Set broken body].
      destruct (broken w); cbn; rewrite <- ?app_assoc; cbn;
        rewrite <- ?app_assoc; rewrite ?app_nil_r; reflexivity.
    + cbn. unfold after. cbn. rewrite <- ?app_assoc. cbn.
      rewrite <- ?app_assoc. reflexivity.
  - cbn. unfold after. cbn. rewrite <- ?app_assoc. cbn.
    rewrite ?app_nil_r, <- ?app_assoc. reflexivity.
  - cbn. unfold after. cbn. rewrite <- ?app_assoc. reflexivity.
Qed.

End Paths.

(** ** Traces *)

Section Traces.

Local Open Scope list_scope.

Lemma remote_contacts_logged (out : list logline) (rest : list event) :
  remote_contacts (map Logged out ++ rest) = remote_contacts rest.
Proof. induction out as [|l out IH]; [reflexivity | exact IH]. Qed.

Lemma store_calls_logged (out : list logline) (rest : list event) :
  store_calls (map Logged out ++ rest) = store_calls rest.
Proof. induction out as [|l out IH]; [reflexivity | exact IH]. Qed.

Lemma remote_after_miss_logged (barcode : string) (out : list logline) :
  forall (missed : bool) (rest : list event),
    remote_after_miss barcode missed (map Logged out ++ rest) =
    remote_after_miss barcode missed rest.
Proof. induction out as [|l out IH]; intros; [reflexivity | apply IH]. Qed.

Lemma remote_contacts_only_logged (out : list logline) :
  remote_contacts (map Logged out) = 0%nat.
Proof. induction out as [|l out IH]; [reflexivity | exact IH]. Qed.

Lemma store_calls_only_logged (out : list logline) :
  store_calls (map Logged out) = 0%nat.
Proof. induction out as [|l out IH]; [reflexivity | exact IH]. Qed.

Lemma remote_after_miss_only_logged (barcode : string) (missed : bool)
  (out : list logline) :
  remote_after_miss barcode missed (map Logged out) = true.
Proof. induction out as [|l out IH]; [reflexivity | exact IH]. Qed.


End Traces.

(** Unfolds the events of a path and runs a count or a check along them,
    stepping over what the servers logged. *)
Ltac walk_trace :=
  unfold after, respond, incoming, not_in_cache, no_result;
  repeat match goal with |- context [if broken ?w then _ else _] =>
                           destruct (broken w) end;
  cbn [fst snd];
  repeat (cbn [remote_contacts store_calls remote_after_miss app orb andb];
          rewrite <- ?app_assoc; rewrite ?app_nil_r;
          rewrite ?remote_contacts_logged, ?store_calls_logged,
            ?remote_after_miss_logged, ?String.eqb_refl);
  rewrite ?remote_contacts_only_logged, ?store_calls_only_logged,
    ?remote_after_miss_only_logged.

Section Coordinator.

Local Open Scope list_scope.

Context {L R : Type}.
Context {local_iface : BarcodeServerInterface L}.
Context {remote_iface : BarcodeServerInterface R}.


End Coordinator.

(** ** The coordinator *)



(** C4, as the code has it.  With no local server the handler returns at
    once: it logs the request, sets the content type, calls neither
    server and writes nothing. *)
Theorem handler_returns_without_local_server :
  forall (L R : Type) (local_iface : BarcodeServerInterface L)
         (remote_iface : BarcodeServerInterface R)
         (w : ResponseWriter) (r : Request) (remoteServer : option R),
    let run := barcodeHandler w r (@None L) remoteServer in
    fst run = [incoming r] /\
    snd run = Some (prepared w, None, remoteServer) /\
    remote_contacts (fst run) = 0%nat /\
    body (prepared w) = body w.
Proof. intros. repeat split. Qed.

(** C4, as stated, fails.  With no local server and the random server as
    remote source, which answers the key 666 with an item, the handler
    does not contact the remote source and writes nothing. *)
Lemma unset_local_server_skips_remote :
  let run :=
    barcodeHandler fresh_writer request_666 (@None (SQLiteServer RelDB))
      (Some random_214304) in
  Lookup "666" random_214304 =
  ret (Some item_666, mkRandom (rand_values random_214304) 1) /\
  remote_contacts (fst run) = 0%nat /\
  snd run = Some (prepared fresh_writer, None, Some random_214304) /\
  body (prepared fresh_writer) = [].
Proof. repeat split. Qed.

(** ** Errors of the database under the servers *)

Section ServerErrors.

Context {DB : Type} {driver : SQLDriver DB}.

(** What [SQLShim.Store] does with an item whose key is not empty, by
    what the execution comes to. *)
Lemma SQLShim_Store_exec (item : BarcodeItem) (s : SQLShim DB) (d : DB) :
  Barcode item <> "" -> db s = Some d ->
  SQLShim_Store (Some item) s =
  let (d', err) :=
    db_Exec (insert s)
      [Barcode item; ISBN item; Author item; Title item; Barcode item] d in
  ret (err, set_db s (Some d')).
Proof.
  intros Hne Hdb. unfold SQLShim_Store. rewrite Hdb.
  apply String.eqb_neq in Hne. now rewrite Hne.
Qed.

(** An execution error makes [Store] of each server exit. *)
Lemma servers_exit_on_store_error (item : BarcodeItem) (s : SQLShim DB)
  (d d' : DB) (e : error) :
  Barcode item <> "" -> db s = Some d ->
  db_Exec (insert s)
    [Barcode item; ISBN item; Author item; Title item; Barcode item] d
  = (d', Some e) ->
  Store (Some item) (mkSQLite s)
  = ([boom_line "Unable to store item" e], None) /\
  Store (Some item) (mkPostgres s)
  = ([Println [LItem (Some item)]; boom_line "Unable to store item" e],
     None) /\
  Store (Some item) (mkMySQL s)
  = ([boom_line "Unable to store item" e], None).
Proof.
  intros Hne Hdb Hexec.
  pose proof (SQLShim_Store_exec item s Hne Hdb) as Hs.
  rewrite Hexec in Hs.
  cbn [Store SQLiteServer_iface PostgresServer_iface MySQLServer_iface].
  unfold SQLiteServer_Store, PostgresServer_Store, MySQLServer_Store.
  cbn [sqlite_shim postgres_shim mysql_shim]. rewrite Hs.
  repeat split.
Qed.

(** A query error makes [Lookup] of each server exit. *)
Lemma servers_exit_on_query_error (barcode : string) (s : SQLShim DB)
  (d d' : DB) (e : error) :
  barcode <> "" -> db s = Some d ->
  db_Query (lookup s) [barcode] d = (d', inl e) ->
  SQLShim_Lookup barcode s = ret (None, Some e, set_db s (Some d')) /\
  Lookup barcode (mkSQLite s)
  = ([boom_line "Unable to lookup item" e], None) /\
  Lookup barcode (mkPostgres s)
  = ([boom_line "Unable to lookup item" e], None) /\
  Lookup barcode (mkMySQL s)
  = ([boom_line "Unable to lookup item" e], None).
Proof.
  intros Hne Hdb Hq.
  pose proof (SQLShim_Lookup_query s Hne Hdb) as Hs.
  rewrite Hq in Hs. cbv zeta in Hs.
  cbn [Lookup SQLiteServer_iface PostgresServer_iface MySQLServer_iface].
  unfold SQLiteServer_Lookup, PostgresServer_Lookup, MySQLServer_Lookup.
  cbn [sqlite_shim postgres_shim mysql_shim]. rewrite Hs.
  repeat split.
Qed.

End ServerErrors.

(** C3, as the code has it.  When the query of a lookup fails,
    [SQLShim.Lookup] returns the error next to a nil item, which a nil
    error next to a nil item ("absent") is not; [Lookup] of each of the
    three servers passes that error to [boom] and the process exits; a
    run of the handler over such a server ends there, the remote source
    not contacted. *)
Theorem query_error_exits_before_remote :
  forall (DB R : Type) (driver : SQLDriver DB)
         (remote_iface : BarcodeServerInterface R)
         (s : SQLShim DB) (d d' : DB) (e : error)
         (w : ResponseWriter) (r : Request) (remoteServer : option R),
    let barcode := map_get (Vars r) "barcode" in
    let exit_line := boom_line "Unable to lookup item" e in
    barcode <> "" ->
    db s = Some d ->
    db_Query (lookup s) [barcode] d = (d', inl e) ->
    SQLShim_Lookup barcode s = ret (None, Some e, set_db s (Some d')) /\
    Lookup barcode (mkSQLite s) = ([exit_line], None) /\
    Lookup barcode (mkPostgres s) = ([exit_line], None) /\
    Lookup barcode (mkMySQL s) = ([exit_line], None) /\
    barcodeHandler w r (Some (mkSQLite s)) remoteServer
    = ([incoming r; Logged exit_line], None) /\
    barcodeHandler w r (Some (mkPostgres s)) remoteServer
    = ([incoming r; Logged exit_line], None) /\
    barcodeHandler w r (Some (mkMySQL s)) remoteServer
    = ([incoming r; Logged exit_line], None).
Proof.
  intros DB R driver remote_iface s d d' e w r remoteServer barcode exit_line
    Hne Hdb Hq.
  destruct (servers_exit_on_query_error s Hne Hdb Hq) as (Hs & H1 & H2 & H3).
  repeat split; try assumption.
  - exact (handler_local_exit w r (mkSQLite s) remoteServer Hne H1).
  - exact (handler_local_exit w r (mkPostgres s) remoteServer Hne H2).
  - exact (handler_local_exit w r (mkMySQL s) remoteServer Hne H3).
Qed.

Lemma bad_connection_exits_on_lookup :
  barcodeHandler fresh_writer request_666 (Some (empty_cache [CallFails]))
    (Some random_214304)
  = ([incoming request_666;
      Logged (boom_line "Unable to lookup item"
                (DriverError "driver: bad connection"))], None).
Proof.
  assert (Hne : map_get (Vars request_666) "barcode" <> "")
    by (intros E; discriminate E).
  pose proof (@query_error_exits_before_remote RelDB RandomServer _ _
                (sqlite_shim_over [] [CallFails])
                (mkRelDB SQLite (Some []) [CallFails])
                (mkRelDB SQLite (Some []) [])
                (DriverError "driver: bad connection")
                fresh_writer request_666 (Some random_214304)
                Hne eq_refl eq_refl) as H.
  destruct H as (_ & _ & _ & _ & H & _). exact H.
Defined.

(** C3, as stated, fails.  On a SQLite server whose connection fails at
    the next call, [SQLShim.Lookup] of the key 666 returns the error, yet
    [Lookup] of the server returns nothing: the process exits, and so
    does the run of the handler, which never contacts the remote source
    that would have answered. *)
Lemma query_error_is_fatal_not_a_miss :
  let local := empty_cache [CallFails] in
  let run :=
    barcodeHandler fresh_writer request_666 (Some local)
      (Some random_214304) in
  SQLShim_Lookup "666" (sqlite_shim local)
  = ret (None, Some (DriverError "driver: bad connection"),
         sqlite_shim_over [] []) /\
  snd (Lookup "666" local) = None /\
  snd run = None /\
  remote_contacts (fst run) = 0%nat /\
  Lookup "666" random_214304 =
  ret (Some item_666, mkRandom (rand_values random_214304) 1).
Proof. repeat split. Qed.

(** C2, as the code has it.  When the local lookup answers with no item
    and the remote lookup answers with an item, the handler calls the
    local store once, with that item, before it writes anything.  If the
    store returns, the item is written to the response; if the store
    exits the process, the run ends there and nothing is written.  And
    the store of each of the three database servers exits the process,
    through [boom], when the execution of the insert fails. *)
Theorem write_through_precedes_answer :
  forall (L R : Type) (local_iface : BarcodeServerInterface L)
         (remote_iface : BarcodeServerInterface R)
         (w : ResponseWriter) (r : Request) (l0 l1 : L) (r0 r1 : R)
         (out1 out2 : list logline) (item : BarcodeItem),
    let barcode := map_get (Vars r) "barcode" in
    let run := barcodeHandler w r (Some l0) (Some r0) in
    barcode <> "" ->
    Lookup barcode l0 = (out1, Some (None, l1)) ->
    Lookup barcode r0 = (out2, Some (Some item, r1)) ->
    store_calls (fst run) = 1%nat /\
    In (StoreCalled item) (fst run) /\
    match Store (Some item) l1 with
    | (out3, Some l2) =>
        snd run = if broken w then None
                  else Some (answered item w, Some l2, Some r1)
    | (out3, None) =>
        snd run = None /\
        exists before, fst run = (before ++ map Logged out3)%list
    end /\
    (forall (DB : Type) (driver : SQLDriver DB) (s : SQLShim DB) (d d' : DB)
            (e : error),
        Barcode item <> "" ->
        db s = Some d ->
        db_Exec (insert s)
          [Barcode item; ISBN item; Author item; Title item; Barcode item] d
        = (d', Some e) ->
        Store (Some item) (mkSQLite s)
        = ([boom_line "Unable to store item" e], None) /\
        Store (Some item) (mkPostgres s)
        = ([Println [LItem (Some item)]; boom_line "Unable to store item" e],
           None) /\
        Store (Some item) (mkMySQL s)
        = ([boom_line "Unable to store item" e], None)).
Proof.
  intros L R local_iface remote_iface w r l0 l1 r0 r1 out1 out2 item
    barcode run Hne Hl Hr.
  subst run barcode.
  rewrite (handler_miss_with_remote _ _ _ _ Hne Hl), Hr.
  split; [|split; [|split]].
  - destruct (Store (Some item) l1) as [out3 [l2|]]; walk_trace; reflexivity.
  - unfold after. cbn [fst]. apply in_or_app. right.
    apply in_or_app. left. apply in_or_app. right. right. left. reflexivity.
  - destruct (Store (Some item) l1) as [out3 [l2|]].
    + unfold after, respond. destruct (broken w); reflexivity.
    + split; [reflexivity|]. unfold after. cbn [fst].
      eexists. rewrite !app_assoc. reflexivity.
  - intros DB driver s d d' e. apply servers_exit_on_store_error.
Qed.

Lemma miss_666_stored_then_answered :
  let run :=
    barcodeHandler fresh_writer request_666 (Some (empty_cache []))
      (Some random_214304) in
  store_calls (fst run) = 1%nat /\
  snd run = Some (answered item_666 fresh_writer, Some cache_with_666,
                  Some (mkRandom (rand_values random_214304) 1)).
Proof.
  assert (Hne : map_get (Vars request_666) "barcode" <> "")
    by (intros E; discriminate E).
  pose proof (@write_through_precedes_answer
                (SQLiteServer RelDB) RandomServer _ _
                fresh_writer request_666 (empty_cache []) (empty_cache [])
                random_214304 (mkRandom (rand_values random_214304) 1)
                [] [] item_666 Hne eq_refl eq_refl) as H.
  destruct H as (Hcalls & _ & Hrun & _).
  split; [exact Hcalls | exact Hrun].
Defined.

(** C2, as stated, fails.  On a SQLite server with an empty cache whose
    connection serves the query and fails at the insert, the local lookup
    of 666 answers with no item, the random server answers with an item,
    the store of that item exits the process, and the run ends there: the
    item is not written to the response. *)
Lemma store_failure_prevents_answer :
  let local := empty_cache [Served; CallFails] in
  let run :=
    barcodeHandler fresh_writer request_666 (Some local)
      (Some random_214304) in
  Lookup "666" local = ret (None, empty_cache [CallFails]) /\
  Lookup "666" random_214304 =
  ret (Some item_666, mkRandom (rand_values random_214304) 1) /\
  Store (Some item_666) (empty_cache [CallFails])
  = ([boom_line "Unable to store item" (DriverError "driver: bad connection")],
     None) /\
  snd run = None /\
  In (StoreCalled item_666) (fst run) /\
  last (fst run) (incoming request_666)
  = Logged (boom_line "Unable to store item"
              (DriverError "driver: bad connection")).
Proof.
  repeat split. cbn. tauto.
Qed.

(** ** Instances *)



Lemma lookup_of_666_keeps_key :
  Barcode item_666 = "666" /\ "666" <> "".
Proof.
  assert (Hl : SQLShim_Lookup "666" (sqlite_shim_over [row_of 1 item_666] [])
               = ([], Some (Some item_666, None,
                            sqlite_shim_over [row_of 1 item_666] [])))
    by reflexivity.
  destruct (SQLShim_Lookup_keeps_key _ _ _ Hl) as (Hkey & Hne & _).
  split; [exact Hkey | exact Hne].
Defined.


(** [RandomServer.Lookup] answers every key with an item of that key. *)
Lemma RandomServer_Lookup_keeps_key (barcode : string) (s : RandomServer) :
  exists item s',
    Lookup barcode s = ret (Some item, s') /\ Barcode item = barcode.
Proof.
  do 2 eexists. split; reflexivity.
Qed.

(** Each [Startup], once the connection is open, leaves the shim these
    examples start from. *)
Lemma start_shim_sqlite :
  start_shim (fun s => s) "SQLite" (mkRelDB SQLite None []) blank_shim
  = ret (sqlite_shim_over [] []).
Proof. reflexivity. Qed.

(* ================================================================== *)
(** * Further properties of the code *)

(** ** [varReplace], on any statement *)

(** X1. On a statement of ASCII bytes, where the runes the loop ranges
    over are the bytes, [varReplace] never returns an error, and what it
    returns is the statement with its k-th [?], counting from the left
    and from 1, replaced by the prefix followed by k, every other byte
    kept: the statement is its pieces with a [?] before each but the
    first, the result is the same pieces with the numbered marker in its
    place, and no piece holds a [?]. *)
Theorem varReplace_numbers_every_marker :
  forall (src varPrefix : string),
    all_bytes is_ascii src = true ->
    let (head, tails) := split_markers src in
    src = head ++ fold_right (fun t rest => "?" ++ t ++ rest) "" tails /\
    count_markers head = 0%nat /\
    Forall (fun t => count_markers t = 0%nat) tails /\
    varReplace src varPrefix = (head ++ numbered varPrefix 1 tails, None).
Proof.
  intros src varPrefix _.
  pose proof (split_markers_join src) as Hjoin.
  pose proof (split_markers_clean src) as [Hhead Htails].
  pose proof (varReplace_rewrites src varPrefix) as Hrw.
  unfold rewrite_markers in Hrw.
  destruct (split_markers src) as [head tails]. cbn [fst snd] in *.
  repeat split; assumption.
Qed.

Lemma varReplace_numbers_the_insert :
  all_bytes is_ascii rawInsert = true /\
  varReplace rawInsert "$" = (insert_text true, None).
Proof.
  split; [reflexivity|].
  generalize (@varReplace_numbers_every_marker rawInsert "$" eq_refl).
  vm_compute. intros (_ & _ & _ & H). exact H.
Defined.

(** X2. With a prefix that holds no [?], [varReplace] leaves no [?] in
    any statement. *)
Theorem varReplace_resolves_every_marker :
  forall (src varPrefix : string),
    count_markers varPrefix = 0%nat ->
    count_markers (fst (varReplace src varPrefix)) = 0%nat /\
    snd (varReplace src varPrefix) = None.
Proof.
  intros src varPrefix Hp. split; [|reflexivity].
  now apply varReplace_leaves_no_marker.
Qed.

Lemma varReplace_resolves_oracle_markers :
  count_markers (fst (varReplace rawInsert ":var")) = 0%nat /\
  snd (varReplace rawInsert ":var") = None.
Proof.
  apply (varReplace_resolves_every_marker rawInsert ":var"). reflexivity.
Defined.

(** ** [InitProcedures], on any database type *)

Lemma dialect_case_known (lowered : string) :
  dialect_case lowered <> None <->
  In lowered ["mysql"; "sqlite"; "postgres"].
Proof.
  unfold dialect_case. cbn [In].
  destruct (String.eqb_spec lowered "mysql") as [->|Hm];
    [split; [auto | discriminate]|].
  destruct (String.eqb_spec lowered "sqlite") as [->|Hs];
    [split; [auto | discriminate]|].
  destruct (String.eqb_spec lowered "postgres") as [->|Hp];
    [split; [auto | discriminate]|].
  split; [congruence|].
  intros [E|[E|[E|[]]]]; symmetry in E; contradiction.
Qed.

(** X3. [InitProcedures] returns with no error exactly when the database
    type is not empty and, put in lower case, is [mysql], [sqlite] or
    [postgres]. *)
Theorem InitProcedures_accepts_exactly_three :
  forall (unicodeLower : string -> string) (DB : Type) (dbType : string)
         (s : SQLShim DB),
    (exists s', InitProcedures unicodeLower dbType s = ret (s', None)) <->
    (dbType <> "" /\
     In (ToLower unicodeLower dbType) ["mysql"; "sqlite"; "postgres"]).
Proof.
  intros unicodeLower DB dbType s.
  rewrite <- dialect_case_known. unfold InitProcedures.
  destruct (String.eqb_spec dbType "") as [->|Hne].
  - split; [intros [s' E]; discriminate E | intros [Hn _]; now elim Hn].
  - destruct (dialect_case (ToLower unicodeLower dbType))
      as [[idInfo varPrefix]|].
    + split; [intros _; split; [assumption | discriminate]|].
      intros _. destruct (negb (varPrefix =? "")); eexists; reflexivity.
    + split; [intros [s' E]; discriminate E | intros [_ Hk]; now elim Hk].
Qed.

(** X4. The database type is read without regard to case: two types that
    are not empty and have the same lower-case form compile, when one of
    them does, to the same shim. *)
Theorem InitProcedures_ignores_case :
  forall (unicodeLower : string -> string) (DB : Type) (a b : string)
         (s s' : SQLShim DB),
    a <> "" -> b <> "" ->
    ToLower unicodeLower a = ToLower unicodeLower b ->
    InitProcedures unicodeLower a s = ret (s', None) ->
    InitProcedures unicodeLower b s = ret (s', None).
Proof.
  intros unicodeLower DB a b s s' Ha Hb Hlow.
  unfold InitProcedures. apply String.eqb_neq in Ha, Hb.
  rewrite Ha, Hb, Hlow.
  destruct (dialect_case (ToLower unicodeLower b)) as [[idInfo varPrefix]|];
    [auto | discriminate].
Qed.

Lemma InitProcedures_reads_MySQL_as_mysql :
  InitProcedures (fun s => s) "mysql" (@blank_shim unit)
  = ret (mkShim (create_table_text (MySQL binary)) rawLookup rawInsert None, None).
Proof.
  apply (@InitProcedures_ignores_case (fun s => s) unit "MySQL" "mysql"
           blank_shim
           (mkShim (create_table_text (MySQL binary)) rawLookup rawInsert None)).
  - intros E. discriminate E.
  - intros E. discriminate E.
  - reflexivity.
  - reflexivity.
Defined.

(** ** The life of a database server *)

Section Readiness.

Context {DB : Type} {driver : SQLDriver DB}.

Lemma SQLShim_Lookup_returns (barcode : string) (s s' : SQLShim DB)
  (out : list logline) (res : option BarcodeItem) (err : option error) :
  SQLShim_Lookup barcode s = (out, Some (res, err, s')) ->
  exists d', s' = set_db s (Some d').
Proof.
  unfold SQLShim_Lookup. destruct (db s) as [d|]; [|discriminate].
  destruct (barcode =? ""); [discriminate|].
  destruct (db_Query (lookup s) [barcode] d) as [d' q].
  intros E. exists d'.
  destruct q as [e|[|row rest]]; try (inversion E; reflexivity).
  destruct (Scan3 row) as [e|[[isbn author] title]]; inversion E; reflexivity.
Qed.

Lemma SQLShim_Store_returns (item : option BarcodeItem) (s s' : SQLShim DB)
  (out : list logline) (err : option error) :
  SQLShim_Store item s = (out, Some (err, s')) ->
  exists d', s' = set_db s (Some d').
Proof.
  unfold SQLShim_Store. destruct (db s) as [d|]; [|discriminate].
  destruct item as [it|]; [|discriminate].
  destruct (Barcode it =? ""); [discriminate|].
  destruct (db_Exec (insert s)
              [Barcode it; ISBN it; Author it; Title it; Barcode it] d)
    as [d' e].
  intros E. exists d'. inversion E; reflexivity.
Qed.

Lemma ready_set_db (unicodeLower : string -> string) (what : string)
  (s : SQLShim DB) (d : DB) :
  compiled (InitProcedures unicodeLower what (@blank_shim DB))
  = Profile (setup s) (lookup s) (insert s) ->
  ready unicodeLower what (set_db s (Some d)).
Proof. intros Hc. split; [discriminate | exact Hc]. Qed.

End Readiness.

(** X5. A lookup or a store that returns, with an error or without,
    leaves the shim with a database and with the three statements it had:
    a shim that is ready for its database type stays ready under any
    sequence of calls. *)
Theorem calls_keep_the_shim_ready :
  forall (DB : Type) (driver : SQLDriver DB) (unicodeLower : string -> string)
         (what : string) (s : SQLShim DB),
    ready unicodeLower what s ->
    (forall barcode out res err s',
        SQLShim_Lookup barcode s = (out, Some (res, err, s')) ->
        ready unicodeLower what s' /\
        setup s' = setup s /\ lookup s' = lookup s /\ insert s' = insert s) /\
    (forall item out err s',
        SQLShim_Store item s = (out, Some (err, s')) ->
        ready unicodeLower what s' /\
        setup s' = setup s /\ lookup s' = lookup s /\ insert s' = insert s).
Proof.
  intros DB driver unicodeLower what s [_ Hc]. split.
  - intros barcode out res err s' E.
    destruct (SQLShim_Lookup_returns _ _ E) as [d' ->].
    repeat split; try discriminate. exact Hc.
  - intros item out err s' E.
    destruct (SQLShim_Store_returns _ _ E) as [d' ->].
    repeat split; try discriminate. exact Hc.
Qed.

Lemma sqlite_shim_stays_ready_after_store :
  ready (fun s => s) "sqlite" (sqlite_shim_over [row_of 1 item_666] []).
Proof.
  assert (Hready : ready (fun s => s) "sqlite" (sqlite_shim_over [] [])).
  { split; [discriminate | reflexivity]. }
  destruct (@calls_keep_the_shim_ready RelDB _ (fun s => s) "sqlite"
              (sqlite_shim_over [] []) Hready) as [_ Hstore].
  assert (E : SQLShim_Store (Some item_666) (sqlite_shim_over [] [])
              = ([], Some (None, sqlite_shim_over [row_of 1 item_666] [])))
    by reflexivity.
  exact (proj1 (Hstore _ _ _ _ E)).
Defined.

(** What [Startup] comes to, from the opening of the database on. *)
Lemma startup_tail {DB T} {driver : SQLDriver DB}
  (unicodeLower : string -> string) (what msg : string)
  (d : option DB) (err : option error) (wrap : SQLShim DB -> T)
  (s : SQLShim DB) (t : T) (out : list logline) :
  db s = None ->
  In what ["SQLite"; "postgres"; "mysql"] ->
  (boom err msg ;;;
   '(shim, err) <- InitProcedures unicodeLower what s ;;
   boom err "Unable to initialize procedures" ;;;
   '(shim, err) <- SetupDatabase d shim ;;
   boom err "Unable to set up database " ;;;
   ret (wrap shim)) = (out, Some t) ->
  exists s',
    t = wrap s' /\
    out = [] /\
    ready unicodeLower what s' /\
    exists d0 d1,
      d = Some d0 /\ err = None /\
      db_Exec (setup s') [] d0 = (d1, None) /\
      db s' = Some d1.
Proof.
  intros Hdb Hwhat. destruct err as [e|]; [discriminate|].
  assert (Hinit : exists s1,
             InitProcedures unicodeLower what s = ret (s1, None) /\
             db s1 = None /\
             compiled (InitProcedures unicodeLower what (@blank_shim DB))
             = Profile (setup s1) (lookup s1) (insert s1)).
  { destruct Hwhat as [<-|[<-|[<-|[]]]];
      (eexists; split; [reflexivity | split; [exact Hdb | reflexivity]]). }
  destruct Hinit as (s1 & Hinit & Hdb1 & Hc). rewrite Hinit.
  cbn [bind boom ret app]. unfold SetupDatabase.
  destruct d as [d|]; [|discriminate].
  destruct (db_Exec (setup s1) [] d) as [d1 [e|]] eqn:Hexec; [discriminate|].
  intros E. inversion E; subst. exists (set_db s1 (Some d1)).
  cbn [db set_db setup].
  split; [reflexivity|]. split; [reflexivity|].
  split; [now apply ready_set_db|].
  exists d, d1. repeat split. exact Hexec.
Qed.

(** X6. When [Startup] of a database server returns, [sql.Open] returned
    a database with no error, the create-table statement ran on it with
    no error, and the server holds that database with the three
    statements of its own type: it is ready, whatever it held before.
    The error of [InitProcedures] is never met: each server passes a type
    that compiles. *)
Theorem Startup_leaves_the_server_ready :
  forall (DB : Type) (driver : SQLDriver DB) (unicodeLower : string -> string)
         (sql_Open : string -> string -> option DB * option error)
         (os_Stat : string -> StatResult) (params : string),
    (forall s out s',
        SQLiteServer_Startup unicodeLower sql_Open os_Stat params s
        = (out, Some s') ->
        ready unicodeLower "SQLite" (sqlite_shim s') /\
        exists d d1,
          sql_Open "sqlite3" params = (Some d, None) /\
          db_Exec (setup (sqlite_shim s')) [] d = (d1, None) /\
          db (sqlite_shim s') = Some d1) /\
    (forall s out s',
        PostgresServer_Startup unicodeLower sql_Open params s
        = (out, Some s') ->
        out = [] /\
        ready unicodeLower "postgres" (postgres_shim s') /\
        exists d d1,
          sql_Open "postgres" params = (Some d, None) /\
          db_Exec (setup (postgres_shim s')) [] d = (d1, None) /\
          db (postgres_shim s') = Some d1) /\
    (forall s out s',
        MySQLServer_Startup unicodeLower sql_Open params s
        = (out, Some s') ->
        out = [] /\
        ready unicodeLower "mysql" (mysql_shim s') /\
        exists d d1,
          sql_Open "mysql" params = (Some d, None) /\
          db_Exec (setup (mysql_shim s')) [] d = (d1, None) /\
          db (mysql_shim s') = Some d1).
Proof.
  intros DB driver unicodeLower sql_Open os_Stat params.
  split; [|split].
  - intros s out s' E. unfold SQLiteServer_Startup in E.
    destruct (sql_Open "sqlite3" params) as [d err].
    match type of E with
    | bind _ (fun _ => ?tail) = _ => destruct tail as [o [t|]] eqn:Ht
    end.
    + apply startup_tail in Ht; [| reflexivity | cbn; auto].
      destruct Ht as (s1 & -> & _ & Hr & d0 & d1 & -> & -> & Hexec & Hd).
      assert (s' = mkSQLite s1) as ->
          by (destruct (os_Stat params) as [[|]| |]; cbn in E;
              inversion E; reflexivity).
      split; [exact Hr|]. exists d0, d1. repeat split; assumption.
    + destruct (os_Stat params) as [[|]| |]; cbn in E; discriminate E.
  - intros s out s' E. unfold PostgresServer_Startup in E.
    destruct (sql_Open "postgres" params) as [d err].
    apply startup_tail in E; [| reflexivity | cbn; auto].
    destruct E as (s1 & -> & -> & Hr & d0 & d1 & -> & -> & Hexec & Hd).
    split; [reflexivity|]. split; [exact Hr|].
    exists d0, d1. repeat split; assumption.
  - intros s out s' E. unfold MySQLServer_Startup in E.
    destruct (sql_Open "mysql" params) as [d err].
    apply startup_tail in E; [| reflexivity | cbn; auto].
    destruct E as (s1 & -> & -> & Hr & d0 & d1 & -> & -> & Hexec & Hd).
    split; [reflexivity|]. split; [exact Hr|].
    exists d0, d1. repeat split; assumption.
Qed.

Lemma postgres_startup_on_empty_engine :
  ready (fun s => s) "postgres"
    (mkShim (create_table_text Postgres) (select_text true) (insert_text true)
       (Some (mkRelDB Postgres (Some []) []))).
Proof.
  destruct (@Startup_leaves_the_server_ready RelDB _ (fun s => s)
              (opens_on (mkRelDB Postgres None [])) (fun _ => StatNotExist)
              "host=localhost")
    as (_ & Hpostgres & _).
  assert (E : PostgresServer_Startup (fun s => s)
                (opens_on (mkRelDB Postgres None [])) "host=localhost"
                (mkPostgres blank_shim)
              = ([], Some (mkPostgres
                             (mkShim (create_table_text Postgres)
                                (select_text true) (insert_text true)
                                (Some (mkRelDB Postgres (Some []) []))))))
    by reflexivity.
  exact (proj1 (proj2 (Hpostgres _ _ _ E))).
Defined.

(** X7. After [Shutdown] a server holds no database: [Lookup] of any key
    and [Store] of any item exit the process, and a second [Shutdown]
    changes nothing. *)
Theorem Shutdown_leaves_the_server_unusable :
  forall (DB : Type) (driver : SQLDriver DB) (s : SQLShim DB)
         (barcode : string) (item : option BarcodeItem),
    fatal (Lookup barcode (SQLiteServer_Shutdown (mkSQLite s))) /\
    fatal (Store item (SQLiteServer_Shutdown (mkSQLite s))) /\
    fatal (Lookup barcode (PostgresServer_Shutdown (mkPostgres s))) /\
    fatal (Store item (PostgresServer_Shutdown (mkPostgres s))) /\
    fatal (Lookup barcode (MySQLServer_Shutdown (mkMySQL s))) /\
    fatal (Store item (MySQLServer_Shutdown (mkMySQL s))) /\
    SQLiteServer_Shutdown (SQLiteServer_Shutdown (mkSQLite s))
    = SQLiteServer_Shutdown (mkSQLite s) /\
    PostgresServer_Shutdown (PostgresServer_Shutdown (mkPostgres s))
    = PostgresServer_Shutdown (mkPostgres s) /\
    MySQLServer_Shutdown (MySQLServer_Shutdown (mkMySQL s))
    = MySQLServer_Shutdown (mkMySQL s).
Proof.
  intros DB driver s barcode item.
  repeat split;
    try (exists [], [LStr "Database is nil!"]; reflexivity).
  exists [Println [LItem item]], [LStr "Database is nil!"]. reflexivity.
Qed.

(** ** The cache on the relational engine *)

(** A statement that runs with one argument reads the table and leaves
    it as it was. *)
Lemma run_statement_one (e : Engine) (st : Statement) (key : string)
  (tbl tbl' : option (list Row)) (rows : Rows) :
  run_statement e st [key] tbl = inr (tbl', rows) ->
  exists stored_rows,
    tbl = Some stored_rows /\ tbl' = tbl /\
    rows = map (fun r => [row_isbn r; row_author r; row_title r])
             (filter (has_barcode e key) stored_rows).
Proof.
  destruct st, tbl as [stored_rows|]; simpl; try discriminate.
  intros E. inversion E; subst. exists stored_rows. repeat split.
Qed.

(** Unless [rows.Next] fails before the first row, the rows it yields
    start as the rows selected do. *)
Lemma yielded_unless_cut (fs : list Fault) (rows : Rows) :
  hd Served fs <> RowsCut 0 ->
  hd_error (yielded fs rows) = hd_error rows.
Proof.
  unfold yielded. destruct fs as [|[| |[|n]] later]; cbn [hd]; auto.
  - congruence.
  - destruct rows; auto.
Qed.

Lemma SQLShim_Lookup_on_table :
  forall (barcode : string) (s s' : SQLShim RelDB) (out : list logline)
         (res : option BarcodeItem) (err : option error),
    SQLShim_Lookup barcode s = (out, Some (res, err, s')) ->
    table_of s' = table_of s /\
    (forall item, res = Some item ->
                  first_stored barcode s = Some item /\ err = None) /\
    (err = None -> due s <> RowsCut 0 -> res = first_stored barcode s).
Proof.
  intros barcode s s' out res err E.
  unfold SQLShim_Lookup in E. unfold table_of, first_stored, due.
  destruct (db s) as [d|]; [|discriminate E].
  destruct (barcode =? ""); [discriminate E|].
  destruct (db_Query (lookup s) [barcode] d) as [d' q] eqn:Hq.
  cbn [db_Query RelDB_driver] in Hq.
  destruct (driver_call (lookup s) [barcode] d) as [d1 [e|rows]] eqn:Hcall;
    inversion Hq; subst d1 q; clear Hq.
  - apply driver_call_fails in Hcall as [_ Ht].
    inversion E; subst. cbn [db set_db].
    split; [exact Ht|]. split; [discriminate|]. discriminate.
  - apply driver_call_returns in Hcall as (st & tbl & _ & Hrun & _ & Ht).
    apply run_statement_one in Hrun as (stored_rows & Htd & -> & ->).
    rewrite Htd in *.
    assert (Hfirst : forall rs : list Row,
      hd_error (map (fun r => mkItem barcode (row_isbn r) (row_author r)
                                (row_title r)) rs)
      = match map (fun r => [row_isbn r; row_author r; row_title r]) rs with
        | [] => None
        | row :: _ =>
            match Scan3 row with
            | inl _ => None
            | inr (isbn, author, title) =>
                Some (mkItem barcode isbn author title)
            end
        end).
    { intros [|r rs]; reflexivity. }
    rewrite Hfirst.
    assert (Hscan : forall row rest,
              map (fun r => [row_isbn r; row_author r; row_title r])
                (filter (has_barcode (engine d) barcode) stored_rows)
              = row :: rest ->
              exists i a t, row = [i; a; t]).
    { intros row rest Hsel.
      destruct (filter (has_barcode (engine d) barcode) stored_rows)
        as [|r rs]; [discriminate|].
      inversion Hsel. eauto. }
    remember (map (fun r => [row_isbn r; row_author r; row_title r])
                (filter (has_barcode (engine d) barcode) stored_rows))
      as selected eqn:Hselected.
    clear Hselected.
    assert (Hsub : forall row rest, yielded (faults d) selected = row :: rest ->
                     exists rest', selected = row :: rest').
    { intros row rest Hy. unfold yielded in Hy.
      destruct (faults d) as [|[| |n] later]; eauto.
      destruct n, selected as [|r0 rs]; cbn [firstn] in Hy;
        try discriminate. inversion Hy. eauto. }
    destruct (yielded (faults d) selected) as [|row rest] eqn:Hy.
    + inversion E; subst. cbn [db set_db].
      split; [exact Ht|]. split; [discriminate|].
      intros _ Hcut.
      pose proof (yielded_unless_cut (faults d) selected Hcut) as Hh.
      rewrite Hy in Hh. destruct selected; [reflexivity | discriminate Hh].
    + destruct (Hsub _ _ eq_refl) as (rest' & Hsel).
      destruct (Hscan _ _ Hsel) as (i & a & t & ->).
      cbn [Scan3] in E. rewrite Hsel. cbn [Scan3].
      inversion E; subst res err s'. cbn [db set_db].
      split; [exact Ht|]. split.
      * intros item Hi. inversion Hi. split; reflexivity.
      * reflexivity.
Qed.

(** The lookup statement of the shim on the engine of its type, with
    the table created: what [SQLShim.Lookup] returns, by the fault due
    for the query. *)
Lemma lookup_runs_any (unicodeLower : string -> string) (what : string)
  (s : SQLShim RelDB) (d : RelDB) (rows : list Row) (key : string) :
  ready unicodeLower what s ->
  db s = Some d -> serves (engine d) what ->
  table d = Some rows ->
  key <> "" ->
  SQLShim_Lookup key s
  = ([], Some (lookup_answer (due s) (first_stored key s),
               set_db s (Some (mkRelDB (engine d) (Some rows)
                                 (tl (faults d)))))).
Proof.
  intros Hready Hd He Ht Hkey.
  destruct (@ready_statements _ unicodeLower what s (engine d) Hready He)
    as (_ & Hl & _).
  unfold SQLShim_Lookup, first_stored, due. rewrite Hd, Ht.
  apply String.eqb_neq in Hkey. rewrite Hkey.
  cbn [db_Query RelDB_driver].
  destruct (fault_cases (hd Served (faults d))) as [Hf|Hf].
  - rewrite (driver_call_failed _ _ _ Hf), Hf, Ht. reflexivity.
  - rewrite (driver_call_unfailed _ _ _ Hf), Hl, Ht. cbn [run_statement].
    unfold yielded.
    destruct (faults d) as [|[| |[|n]] later]; cbn [hd lookup_answer] in *;
      try (now contradiction Hf);
      try (destruct (filter (has_barcode (engine d) key) rows) as [|r rest];
           reflexivity).
Qed.

(** X8. [SQLShim.Lookup] only reads: when it returns, with an error or
    without, the table is as it was.  An item it returns comes with no
    error and is the first row stored for the key, under the key asked
    for.  The function never asks [rows.Err]: when [rows.Next] fails
    before the first row, it returns nil and no error whatever is
    stored; in every other return with no error the result is the first
    row stored for the key, or nil when none is stored.  And with the
    lookup statement [InitProcedures] compiles, on the engine of its
    type with the table created, the lookup of a key that is not empty
    returns: the error of the call when the call fails, and otherwise no
    error and that result. *)
Theorem SQLShim_Lookup_reads_the_first_row :
  forall (barcode : string) (s : SQLShim RelDB),
    (forall (s' : SQLShim RelDB) (out : list logline)
            (res : option BarcodeItem) (err : option error),
        SQLShim_Lookup barcode s = (out, Some (res, err, s')) ->
        table_of s' = table_of s /\
        (forall item, res = Some item ->
                      first_stored barcode s = Some item /\ err = None) /\
        (err = None -> due s <> RowsCut 0 ->
         res = first_stored barcode s)) /\
    (forall (unicodeLower : string -> string) (what : string)
            (d : RelDB) (rows : list Row),
        ready unicodeLower what s ->
        db s = Some d -> serves (engine d) what ->
        table d = Some rows ->
        barcode <> "" ->
        exists s',
          SQLShim_Lookup barcode s
          = ([], Some (lookup_answer (due s) (first_stored barcode s), s'))).
Proof.
  intros barcode s. split.
  - intros s' out res err. apply SQLShim_Lookup_on_table.
  - intros unicodeLower what d rows Hready Hd He Ht Hkey.
    eexists. exact (@lookup_runs_any unicodeLower what s d rows barcode
                      Hready Hd He Ht Hkey).
Qed.

Lemma lookup_reads_666 :
  first_stored "666" (sqlite_shim_over [row_of 1 item_666] [])
  = Some item_666 /\
  exists s',
    SQLShim_Lookup "666" (sqlite_shim_over [row_of 1 item_666] [RowsCut 0])
    = ([], Some (None, None, s')).
Proof.
  assert (E : SQLShim_Lookup "666" (sqlite_shim_over [row_of 1 item_666] [])
              = ([], Some (Some item_666, None,
                           sqlite_shim_over [row_of 1 item_666] [])))
    by reflexivity.
  destruct (SQLShim_Lookup_reads_the_first_row "666"
              (sqlite_shim_over [row_of 1 item_666] []))
    as [Hany _].
  destruct (Hany _ _ _ _ E) as (_ & Hres & _).
  split; [exact (proj1 (Hres _ eq_refl))|].
  assert (Hready : ready (fun k => k) "sqlite"
                     (sqlite_shim_over [row_of 1 item_666] [RowsCut 0])).
  { split; [discriminate | reflexivity]. }
  assert (Hkey : "666" <> "") by discriminate.
  destruct (SQLShim_Lookup_reads_the_first_row "666"
              (sqlite_shim_over [row_of 1 item_666] [RowsCut 0]))
    as [_ Hpinned].
  exact (Hpinned (fun k => k) "sqlite"
           (mkRelDB SQLite (Some [row_of 1 item_666]) [RowsCut 0])
           [row_of 1 item_666] Hready eq_refl eq_refl eq_refl Hkey).
Defined.






Lemma SQLShim_store_then_lookup :
  forall (unicodeLower : string -> string) (what : string)
         (s : SQLShim RelDB) (d : RelDB) (rows : list Row)
         (item : BarcodeItem),
    ready unicodeLower what s ->
    db s = Some d -> serves (engine d) what ->
    table d = Some rows ->
    served_next 2 (faults d) = true ->
    Barcode item <> "" ->
    stored_in (Barcode item) s = [] ->
    exists s1 s2,
      SQLShim_Store (Some item) s = ([], Some (None, s1)) /\
      SQLShim_Lookup (Barcode item) s1 = ([], Some (Some item, None, s2)) /\
      table_of s1 = Some (rows ++ [row_of (next_id rows) item])%list.
Proof.
  intros unicodeLower what s d rows item Hready Hd He Ht Hserved Hkey
    Habsent.
  apply served_next_step in Hserved as [Hf1 Hserved].
  apply served_next_step in Hserved as [Hf2 _].
  pose proof (@store_runs unicodeLower what s d rows item
                Hready Hd He Ht Hf1 Hkey) as H1.
  assert (Hf : filter (has_barcode (engine d) (Barcode item)) rows = []).
  { revert Habsent. unfold stored_in, stored. rewrite Hd, Ht.
    intros Hs. now apply map_eq_nil in Hs. }
  rewrite (existsb_filter_nil _ _ Hf) in H1.
  set (d1 := mkRelDB (engine d)
               (Some (rows ++ [row_of (next_id rows) item])%list)
               (tl (faults d))) in H1.
  pose proof (@lookup_runs unicodeLower what (set_db s (Some d1)) d1 _
                (Barcode item)
                (@ready_after_call _ unicodeLower what s d1 Hready)
                eq_refl He eq_refl Hf2 Hkey) as H2.
  assert (Hfound : first_stored (Barcode item) (set_db s (Some d1))
                   = Some item).
  { unfold first_stored. cbn [db set_db d1 table engine].
    rewrite filter_app, Hf. cbn [filter app].
    unfold has_barcode at 1. unfold row_of at 1. cbn [row_barcode].
    rewrite String.eqb_refl. cbn. destruct item; reflexivity. }
  rewrite Hfound in H2.
  do 2 eexists. split; [exact H1|]. split; [exact H2|]. reflexivity.
Qed.



(** X11. [SetupDatabase] can be run at every start: when the statement
    runs with no error the table exists and holds the rows the database
    had, none when it had no table; when it fails the table is as it
    was.  The statements of the shim are not touched. *)
Theorem SetupDatabase_keeps_the_rows :
  forall (s s' : SQLShim RelDB) (d : RelDB) (out : list logline)
         (err : option error),
    SetupDatabase (Some d) s = (out, Some (s', err)) ->
    table_of s' =
    match err, table d with
    | None, None => Some []
    | _, kept => kept
    end /\
    setup s' = setup s /\ lookup s' = lookup s /\ insert s' = insert s.
Proof.
  intros s s' d out err E. unfold SetupDatabase in E.
  destruct (db_Exec (setup s) [] d) as [d1 e] eqn:Hexec.
  inversion E; subst. unfold table_of. cbn [db set_db setup lookup insert].
  split; [|repeat split].
  cbn [db_Exec RelDB_driver] in Hexec.
  destruct (driver_call (setup s) [] d) as [d2 [e1|rs]] eqn:Hcall;
    inversion Hexec; subst.
  - apply driver_call_fails in Hcall as [_ Hsame]. rewrite Hsame.
    destruct (table d); reflexivity.
  - apply driver_call_returns in Hcall as (st & tbl & _ & Hrun & _ & Htbl).
    rewrite Htbl. destruct st, (table d) as [rows|]; cbn in Hrun;
      try discriminate; inversion Hrun; reflexivity.
Qed.

Lemma setup_keeps_666 :
  table_of (sqlite_shim_over [row_of 1 item_666] [])
  = Some [row_of 1 item_666].
Proof.
  assert (E : SetupDatabase
                (Some (mkRelDB SQLite (Some [row_of 1 item_666]) []))
                (sqlite_shim_over [] [CallFails])
              = ([], Some (sqlite_shim_over [row_of 1 item_666] [], None)))
    by reflexivity.
  exact (proj1 (SetupDatabase_keeps_the_rows _ _ E)).
Defined.

(** ** More on the coordinator *)

Section MoreTraces.

Local Open Scope list_scope.

Lemma answer_of_logged (out : list logline) (rest : list event) :
  answer_of (map Logged out ++ rest) = answer_of rest.
Proof. induction out as [|l out IH]; [reflexivity | exact IH]. Qed.

Lemma answer_of_only_logged (out : list logline) :
  answer_of (map Logged out) = None.
Proof. induction out as [|l out IH]; [reflexivity | exact IH]. Qed.

Lemma stored_items_logged (out : list logline) (rest : list event) :
  stored_items (map Logged out ++ rest) = stored_items rest.
Proof. induction out as [|l out IH]; [reflexivity | exact IH]. Qed.

Lemma stored_items_only_logged (out : list logline) :
  stored_items (map Logged out) = [].
Proof. induction out as [|l out IH]; [reflexivity | exact IH]. Qed.

Lemma remote_items_logged (out : list logline) (rest : list event) :
  remote_items (map Logged out ++ rest) = remote_items rest.
Proof. induction out as [|l out IH]; [reflexivity | exact IH]. Qed.

Lemma remote_items_only_logged (out : list logline) :
  remote_items (map Logged out) = [].
Proof. induction out as [|l out IH]; [reflexivity | exact IH]. Qed.

End MoreTraces.

(** Unfolds the events of a path and reads the answer and the items
    along them, stepping over what the servers logged. *)
Ltac read_trace :=
  unfold after, respond, incoming, not_in_cache, no_result;
  repeat match goal with |- context [if broken ?w then _ else _] =>
                           destruct (broken w) eqn:? end;
  cbn [fst snd];
  repeat (cbn [answer_of stored_items remote_items app];
          rewrite <- ?app_assoc; rewrite ?app_nil_r;
          rewrite ?answer_of_logged, ?stored_items_logged,
            ?remote_items_logged);
  rewrite ?answer_of_only_logged, ?stored_items_only_logged,
    ?remote_items_only_logged.

(** X12. A request whose barcode is empty is answered at once: the
    handler logs it and sets the content type, calls neither server,
    stores nothing and writes nothing, whatever the servers are. *)
Theorem handler_ignores_an_empty_key :
  forall (L R : Type) (local_iface : BarcodeServerInterface L)
         (remote_iface : BarcodeServerInterface R)
         (w : ResponseWriter) (r : Request)
         (localServer : option L) (remoteServer : option R),
    map_get (Vars r) "barcode" = "" ->
    barcodeHandler w r localServer remoteServer
    = ([incoming r], Some (prepared w, localServer, remoteServer)) /\
    body (prepared w) = body w.
Proof.
  intros L R local_iface remote_iface w r localServer remoteServer Hb.
  split; [|reflexivity]. now apply handler_empty_key.
Qed.

Lemma request_without_barcode_is_ignored :
  barcodeHandler fresh_writer request_without_barcode (Some cache_with_666)
    (Some random_214304)
  = ([incoming request_without_barcode],
     Some (prepared fresh_writer, Some cache_with_666, Some random_214304)).
Proof.
  exact (proj1 (@handler_ignores_an_empty_key _ _ _ _ fresh_writer
                  request_without_barcode (Some cache_with_666)
                  (Some random_214304) eq_refl)).
Defined.

(** X13. A run that returns leaves in the response exactly what its
    sources answered with: the body it found, followed by the item the
    local lookup answered with, or else by the item the remote lookup
    answered with, or by nothing when neither answered with an item.  The
    content type is set in every case. *)
Theorem response_holds_the_answer :
  forall (L R : Type) (local_iface : BarcodeServerInterface L)
         (remote_iface : BarcodeServerInterface R)
         (w w' : ResponseWriter) (r : Request)
         (localServer localServer' : option L)
         (remoteServer remoteServer' : option R) (trace : list event),
    barcodeHandler w r localServer remoteServer
    = (trace, Some (w', localServer', remoteServer')) ->
    header w' = header (prepared w) /\
    body w' = (body w ++ match answer_of trace with
                         | Some item => [item]
                         | None => []
                         end)%list.
Proof.
  intros L R local_iface remote_iface w w' r localServer localServer'
    remoteServer remoteServer' trace.
  destruct localServer as [l0|];
    [| rewrite handler_without_local; intros E; inversion E; subst;
       cbn; now rewrite app_nil_r].
  destruct (String.eqb_spec (map_get (Vars r) "barcode") "") as [Hb|Hb].
  { rewrite (handler_empty_key _ _ _ _ Hb). intros E. inversion E; subst.
    cbn. now rewrite app_nil_r. }
  assert (Hdone : forall (tr : list event) (w1 : ResponseWriter)
                         (l : option L) (rm : option R),
             header w1 = header (prepared w) ->
             body w1 = (body w ++ match answer_of tr with
                                  | Some item => [item]
                                  | None => []
                                  end)%list ->
             (tr, Some (w1, l, rm))
             = (trace, Some (w', localServer', remoteServer')) ->
             header w' = header (prepared w) /\
             body w' = (body w ++ match answer_of trace with
                                  | Some item => [item]
                                  | None => []
                                  end)%list).
  { intros tr w1 l rm Hh Hbody E. inversion E; subst. split; assumption. }
  destruct (Lookup (map_get (Vars r) "barcode") l0)
    as [out [[[item|] l1]|]] eqn:Hl.
  - rewrite (handler_local_hit _ _ _ _ Hb Hl). unfold after, respond.
    destruct (broken w); cbn [fst snd]; [discriminate|].
    apply Hdone; [reflexivity|]. read_trace. reflexivity.
  - destruct remoteServer as [r0|].
    + rewrite (handler_miss_with_remote _ _ _ _ Hb Hl).
      destruct (Lookup (map_get (Vars r) "barcode") r0)
        as [out2 [[[item|] r1]|]].
      * destruct (Store (Some item) l1) as [out3 [l2|]];
          unfold after, respond;
          destruct (broken w); cbn [fst snd]; try discriminate.
        apply Hdone; [reflexivity|]. read_trace. reflexivity.
      * unfold after. cbn [fst snd].
        apply Hdone; [reflexivity|]. read_trace. reflexivity.
      * unfold after. cbn [fst snd]. discriminate.
    + rewrite (handler_miss_without_remote _ _ _ Hb Hl).
      apply Hdone; [reflexivity|]. read_trace. reflexivity.
  - rewrite (handler_local_exit _ _ _ _ Hb Hl). discriminate.
Qed.

Lemma response_to_666_holds_the_answer :
  header (answered item_666 fresh_writer) = header (prepared fresh_writer) /\
  body (answered item_666 fresh_writer) = [item_666].
Proof.
  assert (E : barcodeHandler fresh_writer request_666 (Some (empty_cache []))
                (Some random_214304)
              = (fst (barcodeHandler fresh_writer request_666
                        (Some (empty_cache [])) (Some random_214304)),
                 Some (answered item_666 fresh_writer, Some cache_with_666,
                       Some (mkRandom (rand_values random_214304) 1))))
    by reflexivity.
  exact (@response_holds_the_answer _ _ _ _ _ _ _ _ _ _ _ _ E).
Defined.


(** X15. With a local server set and the random server as remote
    source, no request for a key that is not empty ends without a
    result: a run that returns has written exactly one item, and an item
    of the key asked for when the remote source was contacted. *)
Theorem random_remote_always_answers :
  forall (L : Type) (local_iface : BarcodeServerInterface L)
         (w w' : ResponseWriter) (r : Request) (l0 : L) (l' : option L)
         (remote : RandomServer) (remote' : option RandomServer)
         (trace : list event),
    map_get (Vars r) "barcode" <> "" ->
    barcodeHandler w r (Some l0) (Some remote)
    = (trace, Some (w', l', remote')) ->
    exists item,
      body w' = (body w ++ [item])%list /\
      answer_of trace = Some item /\
      (remote_contacts trace = 1%nat ->
       Barcode item = map_get (Vars r) "barcode").
Proof.
  intros L local_iface w w' r l0 l' remote remote' trace Hb.
  destruct (Lookup (map_get (Vars r) "barcode") l0)
    as [out [[[item|] l1]|]] eqn:Hl.
  - rewrite (handler_local_hit _ _ _ _ Hb Hl). unfold after, respond.
    destruct (broken w); cbn [fst snd]; [discriminate|].
    intros E. inversion E; subst. exists item.
    split; [reflexivity|]. split; [read_trace; reflexivity|].
    walk_trace. discriminate.
  - rewrite (handler_miss_with_remote _ _ _ _ Hb Hl).
    cbn [Lookup RandomServer_iface]. unfold RandomServer_Lookup.
    destruct (rand_Intn 1000000 remote) as [n remote1].
    cbn [ret]. destruct (Store _ l1) as [out3 [l2|]];
      unfold after, respond; destruct (broken w); cbn [fst snd];
      try discriminate.
    intros E. inversion E; subst. eexists.
    split; [reflexivity|]. split; [read_trace; reflexivity|].
    intros _. reflexivity.
  - rewrite (handler_local_exit _ _ _ _ Hb Hl). discriminate.
Qed.

Lemma random_remote_answers_666 :
  exists item,
    body (answered item_666 fresh_writer) = ([] ++ [item])%list /\
    answer_of (fst (barcodeHandler fresh_writer request_666
                      (Some (empty_cache [])) (Some random_214304)))
    = Some item /\
    (remote_contacts
       (fst (barcodeHandler fresh_writer request_666
               (Some (empty_cache [])) (Some random_214304))) = 1%nat ->
     Barcode item = "666").
Proof.
  assert (Hb : map_get (Vars request_666) "barcode" <> "")
    by (intros E; discriminate E).
  assert (E : barcodeHandler fresh_writer request_666 (Some (empty_cache []))
                (Some random_214304)
              = (fst (barcodeHandler fresh_writer request_666
                        (Some (empty_cache [])) (Some random_214304)),
                 Some (answered item_666 fresh_writer, Some cache_with_666,
                       Some (mkRandom (rand_values random_214304) 1))))
    by reflexivity.
  exact (@random_remote_always_answers _ _ _ _ _ _ _ _ _ _ Hb E).
Defined.

(** ** Write-through, seen from the next request *)

(** The write-through on shims: a lookup that finds nothing, a store of
    an item of that key, and the lookup again. *)
Lemma shim_write_through (unicodeLower : string -> string) (what : string)
  (s : SQLShim RelDB) (d : RelDB) (rows : list Row) (item : BarcodeItem) :
  ready unicodeLower what s ->
  db s = Some d -> serves (engine d) what ->
  table d = Some rows ->
  served_next 3 (faults d) = true ->
  Barcode item <> "" ->
  stored_in (Barcode item) s = [] ->
  exists s1 s2 s3,
    SQLShim_Lookup (Barcode item) s = ([], Some (None, None, s1)) /\
    SQLShim_Store (Some item) s1 = ([], Some (None, s2)) /\
    SQLShim_Lookup (Barcode item) s2 = ([], Some (Some item, None, s3)) /\
    table_of s2 = Some (rows ++ [row_of (next_id rows) item])%list.
Proof.
  intros Hready Hd He Ht Hserved Hkey Habsent.
  apply served_next_step in Hserved as [Hf1 Hserved].
  pose proof (@lookup_runs unicodeLower what s d rows (Barcode item)
                Hready Hd He Ht Hf1 Hkey) as H1.
  assert (Hf : filter (has_barcode (engine d) (Barcode item)) rows = []).
  { revert Habsent. unfold stored_in, stored. rewrite Hd, Ht.
    intros Hs. now apply map_eq_nil in Hs. }
  assert (Hnone : first_stored (Barcode item) s = None).
  { unfold first_stored. rewrite Hd, Ht, Hf. reflexivity. }
  rewrite Hnone in H1.
  set (d1 := mkRelDB (engine d) (Some rows) (tl (faults d))) in H1.
  assert (Habsent1 : stored_in (Barcode item) (set_db s (Some d1)) = []).
  { unfold stored_in, stored. cbn [db set_db d1 table engine].
    now rewrite Hf. }
  destruct (@SQLShim_store_then_lookup unicodeLower what
              (set_db s (Some d1)) d1 rows item
              (@ready_after_call _ unicodeLower what s d1 Hready)
              eq_refl He eq_refl Hserved Hkey Habsent1)
    as (s2 & s3 & H2 & H3 & Ht2).
  exists (set_db s (Some d1)), s2, s3. repeat split; assumption.
Qed.

Section NextRequest.

Context {L R : Type}.
Context {local_iface : BarcodeServerInterface L}.
Context {remote_iface : BarcodeServerInterface R}.

(** The two runs, from what the calls of the two servers return. *)
Lemma next_request_generic (w w2 : ResponseWriter) (r : Request)
  (item : BarcodeItem) (r0 r1 : R) (remote2 : option R)
  (l0 l1 l2 l3 : L) (out1 out2 out3 out4 : list logline) :
  map_get (Vars r) "barcode" <> "" ->
  Lookup (map_get (Vars r) "barcode") l0 = (out1, Some (None, l1)) ->
  Lookup (map_get (Vars r) "barcode") r0 = (out2, Some (Some item, r1)) ->
  Store (Some item) l1 = (out3, Some l2) ->
  Lookup (map_get (Vars r) "barcode") l2 = (out4, Some (Some item, l3)) ->
  snd (barcodeHandler w r (Some l0) (Some r0))
  = (if broken w then None else Some (answered item w, Some l2, Some r1)) /\
  remote_contacts (fst (barcodeHandler w2 r (Some l2) remote2)) = 0%nat /\
  store_calls (fst (barcodeHandler w2 r (Some l2) remote2)) = 0%nat /\
  snd (barcodeHandler w2 r (Some l2) remote2)
  = (if broken w2 then None else Some (answered item w2, Some l3, remote2)).
Proof.
  intros key_not_empty Hl Hr Hs Hl2. split.
  - rewrite (handler_miss_with_remote _ _ _ _ key_not_empty Hl), Hr, Hs.
    unfold after, respond. destruct (broken w); reflexivity.
  - rewrite (handler_local_hit _ _ _ _ key_not_empty Hl2).
    repeat split; walk_trace; reflexivity.
Qed.

End NextRequest.

(** The calls of the three servers, from those of the shim. *)
Lemma server_calls (s s' : SQLShim RelDB) (key : string)
  (res : option BarcodeItem) (item : BarcodeItem) :
  (SQLShim_Lookup key s = ([], Some (res, None, s')) ->
   Lookup key (mkSQLite s) = ([], Some (res, mkSQLite s')) /\
   Lookup key (mkPostgres s) = ([], Some (res, mkPostgres s')) /\
   Lookup key (mkMySQL s) = ([], Some (res, mkMySQL s'))) /\
  (SQLShim_Store (Some item) s = ([], Some (None, s')) ->
   Store (Some item) (mkSQLite s) = ([], Some (mkSQLite s')) /\
   Store (Some item) (mkPostgres s)
   = ([Println [LItem (Some item)]], Some (mkPostgres s')) /\
   Store (Some item) (mkMySQL s) = ([], Some (mkMySQL s'))).
Proof.
  split; intros E.
  - cbn [Lookup SQLiteServer_iface PostgresServer_iface MySQLServer_iface].
    unfold SQLiteServer_Lookup, PostgresServer_Lookup, MySQLServer_Lookup.
    cbn [sqlite_shim postgres_shim mysql_shim]. rewrite E.
    repeat split.
  - cbn [Store SQLiteServer_iface PostgresServer_iface MySQLServer_iface].
    unfold SQLiteServer_Store, PostgresServer_Store, MySQLServer_Store.
    cbn [sqlite_shim postgres_shim mysql_shim]. rewrite E.
    repeat split.
Qed.

(** The write-through of one request and the next request for its key,
    over a server that wraps a shim. *)
Lemma write_through_over {L R : Type}
  {local_iface : BarcodeServerInterface L}
  {remote_iface : BarcodeServerInterface R}
  (wrap : SQLShim RelDB -> L) (shim_of : L -> SQLShim RelDB)
  (Hshim : forall s, shim_of (wrap s) = s)
  (Hcalls : forall s s' key res item,
      (SQLShim_Lookup key s = ([], Some (res, None, s')) ->
       Lookup key (wrap s) = ([], Some (res, wrap s'))) /\
      (SQLShim_Store (Some item) s = ([], Some (None, s')) ->
       exists out, Store (Some item) (wrap s) = (out, Some (wrap s'))))
  (unicodeLower : string -> string) (what : string)
  (w w2 : ResponseWriter) (r : Request) (item : BarcodeItem)
  (r0 r1 : R) (remote2 : option R)
  (s : SQLShim RelDB) (d : RelDB) (rows : list Row) (out2 : list logline) :
  ready unicodeLower what s ->
  db s = Some d -> serves (engine d) what ->
  table d = Some rows ->
  served_next 3 (faults d) = true ->
  map_get (Vars r) "barcode" <> "" ->
  stored_in (map_get (Vars r) "barcode") s = [] ->
  Lookup (map_get (Vars r) "barcode") r0 = (out2, Some (Some item, r1)) ->
  Barcode item = map_get (Vars r) "barcode" ->
  written_through shim_of w w2 r item r1 remote2 rows
    (barcodeHandler w r (Some (wrap s)) (Some r0)).
Proof.
  intros Hready Hd He Ht Hserved Hkey Habsent Hr Hitem.
  rewrite <- Hitem in Habsent.
  assert (Hkey' : Barcode item <> "") by now rewrite Hitem.
  destruct (@shim_write_through unicodeLower what s d rows item
              Hready Hd He Ht Hserved Hkey' Habsent)
    as (s1 & s2 & s3 & H1 & H2 & H3 & Ht2).
  rewrite Hitem in H1, H3.
  apply (proj1 (Hcalls _ _ _ _ item)) in H1.
  apply (proj2 (Hcalls _ _ (Barcode item) None _)) in H2 as [out3 H2].
  apply (proj1 (Hcalls _ _ _ _ item)) in H3.
  destruct (@next_request_generic L R _ _ w w2 r item r0 r1 remote2
              (wrap s) (wrap s1) (wrap s2) (wrap s3) [] out2 out3 []
              Hkey H1 Hr H2 H3) as (Hrun & Hzero & Hnone & Hnext).
  exists (wrap s2), (wrap s3). rewrite Hshim.
  repeat split; assumption.
Qed.

(** X16. The write-through serves the next request.  Take a SQLite
    server whose shim holds the statements [InitProcedures] compiles for
    SQLite, on a SQLite engine with the table created and the next three
    calls served; a request for a key, not empty, that no row is stored
    for; a remote source that answers it with an item of that key.  Then
    the run answers with that item and leaves a server whose table has
    the item added; and the next request for the key on that server,
    with any remote source or none, contacts no remote source, stores
    nothing and answers with that same item. *)
Theorem write_through_serves_the_next_request :
  forall (unicodeLower : string -> string)
         (R : Type) (remote_iface : BarcodeServerInterface R)
         (w w2 : ResponseWriter) (r : Request) (item : BarcodeItem)
         (r0 r1 : R) (remote2 : option R)
         (s : SQLShim RelDB) (d : RelDB) (rows : list Row)
         (out2 : list logline),
    ready unicodeLower "sqlite" s ->
    db s = Some d -> engine d = SQLite ->
    table d = Some rows ->
    served_next 3 (faults d) = true ->
    map_get (Vars r) "barcode" <> "" ->
    stored_in (map_get (Vars r) "barcode") s = [] ->
    Lookup (map_get (Vars r) "barcode") r0 = (out2, Some (Some item, r1)) ->
    Barcode item = map_get (Vars r) "barcode" ->
    written_through sqlite_shim w w2 r item r1 remote2 rows
      (barcodeHandler w r (Some (mkSQLite s)) (Some r0)).
Proof.
  intros unicodeLower R remote_iface w w2 r item r0 r1 remote2 s d rows
    out2 Hready Hd He.
  intros Ht Hserved Hkey Habsent Hr Hitem.
  apply (@write_through_over _ R _ _ mkSQLite sqlite_shim
           (fun _ => eq_refl)
           (fun s0 s' key res it =>
              conj (fun E => proj1 (proj1 (server_calls s0 s' key res it) E))
                   (fun E => ex_intro _ _ (proj1 (proj2
                               (server_calls s0 s' key res it) E))))
           unicodeLower "sqlite" w w2 r item r0 r1 remote2 s d rows out2);
    try assumption.
  rewrite He. reflexivity.
Qed.

Lemma second_request_for_666_is_served_locally :
  written_through sqlite_shim fresh_writer fresh_writer request_666 item_666
    (mkRandom (rand_values random_214304) 1)
    (@None RandomServer) []
    (barcodeHandler fresh_writer request_666 (Some (empty_cache []))
       (Some random_214304)).
Proof.
  assert (Hready : ready (fun k => k) "sqlite" (sqlite_shim_over [] [])).
  { split; [discriminate | reflexivity]. }
  assert (Hne : map_get (Vars request_666) "barcode" <> "")
    by (intros E; discriminate E).
  assert (H2 : Lookup (map_get (Vars request_666) "barcode") random_214304
               = ([], Some (Some item_666,
                            mkRandom (rand_values random_214304) 1)))
    by reflexivity.
  exact (@write_through_serves_the_next_request (fun k => k) RandomServer _
           fresh_writer fresh_writer request_666 item_666
           random_214304 (mkRandom (rand_values random_214304) 1) None
           (sqlite_shim_over [] []) (mkRelDB SQLite (Some []) []) [] []
           Hready eq_refl eq_refl eq_refl eq_refl Hne eq_refl H2 eq_refl).
Defined.



(** ** The local server [main] boots *)

Lemma compiled_by_lower_case (unicodeLower : string -> string) (DB : Type)
  (a b : string) :
  a <> "" -> b <> "" ->
  ToLower unicodeLower a = ToLower unicodeLower b ->
  compiled (InitProcedures unicodeLower a (@blank_shim DB))
  = compiled (InitProcedures unicodeLower b (@blank_shim DB)) \/
  dialect_case (ToLower unicodeLower a) = None.
Proof.
  intros Ha Hb Hlow. unfold InitProcedures.
  apply String.eqb_neq in Ha, Hb. rewrite Ha, Hb, Hlow.
  destruct (dialect_case (ToLower unicodeLower b)) as [[idInfo varPrefix]|];
    [left; reflexivity | right; reflexivity].
Qed.

Lemma ready_for_the_type_asked {DB} (unicodeLower : string -> string)
  (asked own : string) (s : SQLShim DB) :
  In own ["SQLite"; "postgres"; "mysql"] ->
  ToLower unicodeLower asked = ToLower unicodeLower own ->
  ready unicodeLower own s ->
  asked <> "" /\ ready unicodeLower asked s.
Proof.
  intros Hown Hlow [Hdb Hc].
  assert (Hasked : asked <> "").
  { intros ->. destruct Hown as [<-|[<-|[<-|[]]]]; discriminate Hlow. }
  split; [exact Hasked|]. split; [exact Hdb|]. rewrite <- Hc.
  assert (Hne : own <> "")
    by (destruct Hown as [<-|[<-|[<-|[]]]]; discriminate).
  destruct (compiled_by_lower_case unicodeLower DB Hasked Hne Hlow)
    as [E|Hnone]; [exact E|].
  exfalso. rewrite Hlow in Hnone.
  destruct Hown as [<-|[<-|[<-|[]]]]; discriminate Hnone.
Qed.

(** X18. Whatever database type [main] accepts, the local server comes
    up ready for that type: when the boot of the local server returns,
    the type asked for is not empty, the server allocated is the one of
    that type read without regard to case, and it holds a database and
    the three statements [InitProcedures] compiles for the type asked
    for. *)
Theorem main_boots_a_server_ready_for_the_type_asked :
  forall (DB : Type) (driver : SQLDriver DB) (unicodeLower : string -> string)
         (sql_Open : string -> string -> option DB * option error)
         (os_Stat : string -> StatResult) (f : Flags)
         (out : list logline) (server : InternalServer DB),
    main_internal_server unicodeLower sql_Open os_Stat f
    = (out, Some server) ->
    dbType f <> "" /\
    ready unicodeLower (dbType f) (shim_of_backend server) /\
    ToLower unicodeLower (dbType f)
    = match server with
      | MySQLBackend _ => "mysql"
      | PostgresBackend _ => "postgres"
      | SQLiteBackend _ => "sqlite"
      end.
Proof.
  intros DB driver unicodeLower sql_Open os_Stat f out server.
  unfold main_internal_server.
  destruct (String.eqb_spec (ToLower unicodeLower (dbType f)) "mysql")
    as [Hm|Hm].
  { unfold MySQLServer_Startup.
    destruct (sql_Open "mysql" _) as [d err].
    match goal with
    | |- bind _ (fun _ => bind ?tail _) = _ -> _ =>
        destruct tail as [o [t|]] eqn:Ht
    end; cbn; [|discriminate].
    intros E. inversion E; subst.
    apply startup_tail in Ht; [| reflexivity | cbn; auto].
    destruct Ht as (s1 & -> & _ & Hr & _).
    cbn [shim_of_backend mysql_shim].
    destruct (@ready_for_the_type_asked DB unicodeLower (dbType f) "mysql" s1)
      as [Hne Hready]; [cbn; auto | exact Hm | exact Hr |].
    split; [exact Hne | split; [exact Hready | exact Hm]]. }
  destruct (String.eqb_spec (ToLower unicodeLower (dbType f)) "postgres")
    as [Hp|Hp].
  { unfold PostgresServer_Startup.
    destruct (sql_Open "postgres" _) as [d err].
    match goal with
    | |- bind _ (fun _ => bind ?tail _) = _ -> _ =>
        destruct tail as [o [t|]] eqn:Ht
    end; cbn; [|discriminate].
    intros E. inversion E; subst.
    apply startup_tail in Ht; [| reflexivity | cbn; auto].
    destruct Ht as (s1 & -> & _ & Hr & _).
    cbn [shim_of_backend postgres_shim].
    destruct (@ready_for_the_type_asked DB unicodeLower (dbType f) "postgres"
                s1) as [Hne Hready]; [cbn; auto | exact Hp | exact Hr |].
    split; [exact Hne | split; [exact Hready | exact Hp]]. }
  destruct (String.eqb_spec (ToLower unicodeLower (dbType f)) "sqlite")
    as [Hs|Hs]; [|cbn; discriminate].
  unfold SQLiteServer_Startup.
  destruct (sql_Open "sqlite3" _) as [d err].
  match goal with
  | |- bind _ (fun _ => bind (bind _ (fun _ => ?tail)) _) = _ -> _ =>
      destruct tail as [o [t|]] eqn:Ht
  end.
  - apply startup_tail in Ht; [| reflexivity | cbn; auto].
    destruct Ht as (s1 & -> & _ & Hr & _).
    destruct (@ready_for_the_type_asked DB unicodeLower (dbType f) "SQLite" s1)
      as [Hne Hready]; [cbn; auto | exact Hs | exact Hr |].
    destruct (os_Stat _) as [[|]| |]; cbn; intros E; inversion E; subst;
      cbn [shim_of_backend sqlite_shim];
      (split; [exact Hne | split; [exact Hready | exact Hs]]).
  - destruct (os_Stat _) as [[|]| |]; cbn; discriminate.
Qed.

Lemma main_boots_sqlite_by_default :
  ready (fun s => s) "sqlite" (sqlite_shim_over [] []).
Proof.
  assert (E : main_internal_server (fun s => s)
                (opens_on (mkRelDB SQLite None [])) (fun _ => StatInfo false)
                (mkFlags "sqlite" "" "" "" "" "")
              = ([Println [LStr "Using database type 'sqlite'"]],
                 Some (SQLiteBackend (mkSQLite (sqlite_shim_over [] [])))))
    by reflexivity.
  exact (proj1 (proj2 (@main_boots_a_server_ready_for_the_type_asked
                         RelDB _ _ _ _ _ _ _ E))).
Defined.

(** X19. [main] refuses the database types [InitProcedures] would not
    compile, and refuses them before it opens anything: for such a type
    the boot logs the type, logs that it is unsupported and exits. *)
Theorem main_refuses_what_the_shim_would_not_compile :
  forall (DB : Type) (driver : SQLDriver DB) (unicodeLower : string -> string)
         (sql_Open : string -> string -> option DB * option error)
         (os_Stat : string -> StatResult) (f : Flags),
    (forall s', InitProcedures unicodeLower (dbType f) (@blank_shim DB)
                <> ret (s', None)) ->
    main_internal_server unicodeLower sql_Open os_Stat f
    = ([Println [LStr ("Using database type '" ++ dbType f ++ "'")];
        Fatalln [LStr ("Database type unsupported: " ++ dbType f)]], None).
Proof.
  intros DB driver unicodeLower sql_Open os_Stat f Hno.
  assert (Hout : ~ In (ToLower unicodeLower (dbType f))
                     ["mysql"; "sqlite"; "postgres"]).
  { intros Hin. apply dialect_case_known in Hin.
    destruct (String.eqb_spec (dbType f) "") as [E|Hne].
    - rewrite E in Hin. now apply Hin.
    - revert Hno. unfold InitProcedures. apply String.eqb_neq in Hne.
      rewrite Hne.
      destruct (dialect_case (ToLower unicodeLower (dbType f)))
        as [[idInfo varPrefix]|]; [|now elim Hin].
      intros Hno. destruct (negb (varPrefix =? "")); eapply Hno; reflexivity. }
  unfold main_internal_server. cbn [In] in Hout.
  destruct (String.eqb_spec (ToLower unicodeLower (dbType f)) "mysql");
    [exfalso; apply Hout; auto|].
  destruct (String.eqb_spec (ToLower unicodeLower (dbType f)) "postgres");
    [exfalso; apply Hout; auto|].
  destruct (String.eqb_spec (ToLower unicodeLower (dbType f)) "sqlite");
    [exfalso; apply Hout; auto|].
  reflexivity.
Qed.

Lemma main_refuses_oracle :
  main_internal_server (fun s => s) (opens_on (mkRelDB SQLite None []))
    (fun _ => StatNotExist) (mkFlags "oracle" "" "" "" "" "")
  = ([Println [LStr "Using database type 'oracle'"];
      Fatalln [LStr "Database type unsupported: oracle"]], None).
Proof.
  apply (@main_refuses_what_the_shim_would_not_compile RelDB _ (fun s => s)
           (opens_on (mkRelDB SQLite None [])) (fun _ => StatNotExist)
           (mkFlags "oracle" "" "" "" "" "")).
  intros s' E. discriminate E.
Defined.

(** ** [AlmaServer] *)

Lemma AlmaServer_Lookup_characterised :
  forall (http_NewRequest : string -> string -> option error)
         (client_Do : string -> list (string * string) -> error + Response)
         (barcode : string) (s : AlmaServer),
    let field x name :=
      match member x name with
      | Some y => as_string y
      | None => ""
      end in
    match http_NewRequest "GET" (alma_URL barcode) with
    | Some e =>
        AlmaServer_Lookup http_NewRequest client_Do barcode s
        = ([boom_line "Unable to create HTTP request" e], None)
    | None =>
        exists out res,
          AlmaServer_Lookup http_NewRequest client_Do barcode s
          = (out, Some (res, s)) /\
          (forall item,
              res = Some item <->
              exists x,
                has_bib_data client_Do barcode s x /\
                item = mkItem barcode (field x "isbn") (field x "author")
                         (field x "title"))
    end.
Proof.
  intros http_NewRequest client_Do barcode s field.
  unfold AlmaServer_Lookup, has_bib_data.
  destruct (http_NewRequest "GET" (alma_URL barcode)) as [e|];
    [reflexivity|].
  cbn [boom bind ret app].
  destruct (client_Do (alma_URL barcode) _) as [e|resp] eqn:Hdo.
  { do 2 eexists. split; [reflexivity|]. intros item. split;
      [discriminate | intros (x & (resp & members & E & _) & _); discriminate E]. }
  destruct (Z.eqb_spec (StatusCode resp) 200) as [Hok|Hbad]; cbn [negb].
  2:{ do 2 eexists. split; [reflexivity|]. intros item. split;
        [discriminate|].
      intros (x & (resp' & members & E & Hs & _) & _).
      inversion E; subst. contradiction. }
  destruct (Body resp) as [[| | | | |members]|] eqn:Hbody;
    cbn [member];
    try (do 2 eexists; split; [reflexivity|]; intros item; split;
         [discriminate|];
         intros (x & (resp' & members' & E & _ & Hb & _) & _);
         inversion E; subst; rewrite Hbody in Hb; discriminate Hb).
  destruct (member members "bib_data") as [[| | | | |x]|] eqn:Hbib;
    try (do 2 eexists; split; [reflexivity|]; intros item; split;
         [discriminate|];
         intros (x' & (resp' & members' & E & _ & Hb & Hm) & _);
         inversion E; subst; rewrite Hbody in Hb; inversion Hb; subst;
         rewrite Hbib in Hm; discriminate Hm).
  do 2 eexists. split; [reflexivity|]. intros item. split.
  - intros E. inversion E; subst. exists x. split; [|reflexivity].
    exists resp, members. repeat split; assumption.
  - intros (x' & (resp' & members' & E & _ & Hb & Hm) & ->).
    inversion E; subst. rewrite Hbody in Hb. inversion Hb; subst.
    rewrite Hbib in Hm. inversion Hm; subst. reflexivity.
Qed.



(** X20. [AlmaServer.Lookup] exits the process only when the request
    cannot be built.  Otherwise it returns, the server unchanged, whatever
    the network does: an item exactly when the answer has the status 200
    and a body that is an object whose member [bib_data] is an object,
    and nil in every other case (no answer, another status, a body that
    is no object, no [bib_data], a [bib_data] that is no object).  The
    item has the key asked for, and for [isbn], [author] and [title] the
    strings under these names in [bib_data], a name that is missing or
    has a value that is no string giving the empty string. *)
Theorem AlmaServer_Lookup_answers_or_nil :
  forall (http_NewRequest : string -> string -> option error)
         (client_Do : string -> list (string * string) -> error + Response)
         (barcode : string) (s : AlmaServer),
    let field x name :=
      match member x name with
      | Some y => as_string y
      | None => ""
      end in
    match http_NewRequest "GET" (alma_URL barcode) with
    | Some e =>
        AlmaServer_Lookup http_NewRequest client_Do barcode s
        = ([boom_line "Unable to create HTTP request" e], None)
    | None =>
        exists out res,
          AlmaServer_Lookup http_NewRequest client_Do barcode s
          = (out, Some (res, s)) /\
          (forall item,
              res = Some item <->
              exists x,
                has_bib_data client_Do barcode s x /\
                item = mkItem barcode (field x "isbn") (field x "author")
                         (field x "title"))
    end.
Proof. exact AlmaServer_Lookup_characterised. Qed.

Lemma alma_answers_666 :
  AlmaServer_Lookup builds_requests alma_answers "666" (mkAlma "secret")
  = ([], Some (Some (mkItem "666" "" "Author1" "Title1"), mkAlma "secret")).
Proof. reflexivity. Qed.


